(** * The DNSE streaming tick client (connector/dnse)

    A shallow embedding of [connector/dnse/test_cli.py] and
    [connector/dnse/stream.py]: the CSV sink, the credentials reader, the
    authentication calls, the three MQTT callbacks with the reconnection
    loop, and the [run] driver.

    Python values are modelled by their constructors, integers by [Z],
    dictionaries with string keys by [gmap string _].  The callbacks run in
    a small state-and-exception monad over a [world] that holds the sink
    files and the ordered trace of what the program did (log records,
    sleeps, reconnect and subscribe calls, requests).  Calls into libraries
    whose text is not part of the repository (the JSON, YAML and literal
    decoders, the HTTP client, the broker connection) are represented by
    what they return or raise, and so is what the operating system makes
    of a file name (the file it leads to, the refusal to open it) and of a
    text to be written in the encoding of the files. *)

From Stdlib Require Import ZArith List String Ascii Bool Lia.
From stdpp Require Import base option list gmap strings.

#[local] Set Warnings "-register-all".
Local Open Scope string_scope.
Local Open Scope Z_scope.

(** ** Python exceptions *)

Module Py.

(** The exception classes the two scripts can meet, with the class each one
    derives from in CPython (and, for [HTTPError], [RequestException] and
    [YAMLError], in requests and PyYAML). *)
Inductive exn_class : Type :=
| BaseException | Exception | KeyboardInterrupt | SystemExit
| ValueError | UnicodeError | UnicodeDecodeError | UnicodeEncodeError
| JSONDecodeError
| TypeError | AttributeError | LookupError | KeyError
| ArithmeticError | OverflowError
| SyntaxError | MemoryError | RuntimeError | RecursionError
| OSError | FileNotFoundError | IsADirectoryError | PermissionError
| ConnectionError
| RequestException | HTTPError
| YAMLError.

Definition exn_class_eqb (a b : exn_class) : bool :=
  match a, b with
  | BaseException, BaseException | Exception, Exception
  | KeyboardInterrupt, KeyboardInterrupt | SystemExit, SystemExit
  | ValueError, ValueError | UnicodeError, UnicodeError
  | UnicodeDecodeError, UnicodeDecodeError
  | UnicodeEncodeError, UnicodeEncodeError | JSONDecodeError, JSONDecodeError
  | TypeError, TypeError | AttributeError, AttributeError
  | LookupError, LookupError | KeyError, KeyError
  | ArithmeticError, ArithmeticError | OverflowError, OverflowError
  | SyntaxError, SyntaxError | MemoryError, MemoryError
  | RuntimeError, RuntimeError | RecursionError, RecursionError
  | OSError, OSError | FileNotFoundError, FileNotFoundError
  | IsADirectoryError, IsADirectoryError | PermissionError, PermissionError
  | ConnectionError, ConnectionError
  | RequestException, RequestException | HTTPError, HTTPError
  | YAMLError, YAMLError => true
  | _, _ => false
  end.

(** The direct base class; [BaseException] is the root. *)
Definition base (c : exn_class) : option exn_class :=
  match c with
  | BaseException => None
  | Exception | KeyboardInterrupt | SystemExit => Some BaseException
  | ValueError | TypeError | AttributeError | LookupError | ArithmeticError
  | SyntaxError
  | MemoryError | RuntimeError | OSError | YAMLError => Some Exception
  | UnicodeError | JSONDecodeError => Some ValueError
  | UnicodeDecodeError | UnicodeEncodeError => Some UnicodeError
  | KeyError => Some LookupError
  | OverflowError => Some ArithmeticError
  | RecursionError => Some RuntimeError
  | FileNotFoundError | IsADirectoryError | PermissionError | ConnectionError
  | RequestException => Some OSError
  | HTTPError => Some RequestException
  end.

(** [issubclass c d]: [c] is [d] or derives from it.  The hierarchy above is
    at most five classes deep. *)
Fixpoint issubclass_fuel (fuel : nat) (c d : exn_class) : bool :=
  exn_class_eqb c d ||
  match fuel with
  | O => false
  | S fuel' =>
      match base c with
      | Some c' => issubclass_fuel fuel' c' d
      | None => false
      end
  end.

Definition issubclass (c d : exn_class) : bool := issubclass_fuel 5 c d.

(** A raised exception: its class and the argument it was built with. *)
Record exn : Type := Exn { exn_cls : exn_class; exn_arg : string }.

(** [str(e)]: the argument, which a [KeyError] shows quoted. *)
Definition str_exn (e : exn) : string :=
  if exn_class_eqb (exn_cls e) KeyError then "'" ++ exn_arg e ++ "'"
  else exn_arg e.

Definition isinstance_exn (e : exn) (c : exn_class) : bool :=
  issubclass (exn_cls e) c.
Arguments isinstance_exn : simpl never.

(** The outcome of a call: a value, or an exception on its way up. *)
Inductive result (A : Type) : Type :=
| Ok (a : A)
| Raise (e : exn).
Arguments Ok {A} a.
Arguments Raise {A} e.

(** ** Python values

    The values [json.loads], [yaml.safe_load] and [ast.literal_eval] build:
    [None], booleans, integers, floats, strings, lists, tuples and
    dictionaries with string keys.  Binary64 arithmetic is not modelled: a
    float is denoted by what it was made from. *)
Inductive pyfloat : Type :=
| FloatLit (literal : string)     (* a float literal of the decoded text *)
| FloatOfInt (z : Z)              (* [float(z)] for an integer in range *)
| FloatOfStr (s : string).        (* [float(s)] for a string [float] accepts *)

Inductive pyval : Type :=
| PyNone
| PyBool (b : bool)
| PyInt (z : Z)
| PyFloat (f : pyfloat)
| PyStr (s : string)
| PyList (items : list pyval)
| PyTuple (items : list pyval)
| PyDict (d : gmap string pyval).

Definition is_str (v : pyval) : bool :=
  match v with PyStr _ => true | _ => false end.
Definition is_list (v : pyval) : bool :=
  match v with PyList _ => true | _ => false end.
Definition is_dict (v : pyval) : bool :=
  match v with PyDict _ => true | _ => false end.

Definition type_name (v : pyval) : string :=
  match v with
  | PyNone => "NoneType" | PyBool _ => "bool" | PyInt _ => "int"
  | PyFloat _ => "float" | PyStr _ => "str" | PyList _ => "list"
  | PyTuple _ => "tuple" | PyDict _ => "dict"
  end.

(** [needle in hay] on strings: [needle] occurs somewhere in [hay]. *)
Fixpoint str_contains (needle hay : string) : bool :=
  String.prefix needle hay ||
  match hay with
  | EmptyString => false
  | String _ hay' => str_contains needle hay'
  end.

(** [key in v] for a string [key]: key membership on a dictionary, element
    membership on a list or tuple, substring on a string, [TypeError] on a
    value that is not iterable. *)
Definition contains (key : string) (v : pyval) : result bool :=
  match v with
  | PyDict d => Ok (bool_decide (is_Some (d !! key)))
  | PyList items | PyTuple items =>
      Ok (existsb (fun x => match x with
                            | PyStr s => String.eqb s key
                            | _ => false
                            end) items)
  | PyStr s => Ok (str_contains key s)
  | PyNone | PyBool _ | PyInt _ | PyFloat _ =>
      Raise (Exn TypeError
               ("argument of type '" ++ type_name v ++ "' is not iterable"))
  end.

(** [v[key]] for a string [key]. *)
Definition getitem (v : pyval) (key : string) : result pyval :=
  match v with
  | PyDict d =>
      match d !! key with
      | Some x => Ok x
      | None => Raise (Exn KeyError key)
      end
  | PyList _ | PyTuple _ =>
      Raise (Exn TypeError
               (type_name v ++ " indices must be integers or slices, not str"))
  | PyStr _ => Raise (Exn TypeError "string indices must be integers, not 'str'")
  | PyNone | PyBool _ | PyInt _ | PyFloat _ =>
      Raise (Exn TypeError
               ("'" ++ type_name v ++ "' object is not subscriptable"))
  end.

(** [v[key] = x] for a string [key]; the value is the object after the
    assignment. *)
Definition setitem (v : pyval) (key : string) (x : pyval) : result pyval :=
  match v with
  | PyDict d => Ok (PyDict (<[key := x]> d))
  | PyList _ =>
      Raise (Exn TypeError "list indices must be integers or slices, not str")
  | _ =>
      Raise (Exn TypeError
               ("'" ++ type_name v ++
                "' object does not support item assignment"))
  end.

(** [float(z)] raises [OverflowError] when [z] rounds to a magnitude of
    [2^1024] or more: from the midpoint between the largest binary64 value
    [2^1024 - 2^971] and [2^1024] on. *)
Definition int_too_large (z : Z) : bool :=
  (2 ^ 1024 - 2 ^ 970 <=? Z.abs z)%Z.

Section Coercion.

(** Whether [float] accepts a string: CPython's grammar of float literals
    (sign, digits with underscores, fraction, exponent, [inf], [nan], with
    blanks around) is taken as given. *)
Variable float_literal : string -> bool.

Definition float (v : pyval) : result pyval :=
  match v with
  | PyFloat f => Ok (PyFloat f)
  | PyInt z =>
      if int_too_large z
      then Raise (Exn OverflowError "int too large to convert to float")
      else Ok (PyFloat (FloatOfInt z))
  | PyBool b => Ok (PyFloat (FloatOfInt (if b then 1 else 0)))
  | PyStr s =>
      if float_literal s then Ok (PyFloat (FloatOfStr s))
      else Raise (Exn ValueError
                    ("could not convert string to float: '" ++ s ++ "'"))
  | PyNone | PyList _ | PyTuple _ | PyDict _ =>
      Raise (Exn TypeError
               ("float() argument must be a string or a real number, not '"
                ++ type_name v ++ "'"))
  end.

End Coercion.

End Py.

Import Py.

(** ** The world the callbacks act on *)

Inductive level : Type := DEBUG | INFO | ERROR.

(** One constructor per [logging] call of the two scripts. *)
Inductive log_record : Type :=
| LogConnected                            (* "Connected to MQTT Broker!" *)
| LogConnectFailed (rc : Z)               (* "Failed to connect, return code {rc}" *)
| LogDisconnected (rc : Z)                (* "Disconnected with result code: %s" *)
| LogReconnecting (delay : Z)             (* "Reconnecting in %d seconds..." *)
| LogReconnected                          (* "Reconnected successfully!" *)
| LogReconnectFailed (err : exn)          (* "%s. Reconnect failed. Retrying..." *)
| LogGivingUp (count : Z)                 (* "Reconnect failed after %s attempts. Exiting..." *)
| LogTick (payload : pyval)               (* "Received tick data: {payload}" *)
| LogInvalidTick                          (* "Invalid data format, skipping tick." *)
| LogParsedTopics (topics : list string). (* "Parsed topics: {topics_tuple}" *)

Definition level_of (r : log_record) : level :=
  match r with
  | LogConnected | LogDisconnected _ | LogReconnecting _ | LogReconnected
  | LogGivingUp _ => INFO
  | LogConnectFailed _ | LogReconnectFailed _ | LogInvalidTick => ERROR
  | LogTick _ | LogParsedTopics _ => DEBUG
  end.

(** What the program does to the outside, in the order it does it. *)
Inductive event : Type :=
| Log (r : log_record)
| Sleep (seconds : Z)                      (* [time.sleep] *)
| Reconnect                                (* [client.reconnect()] *)
| Subscribe (topics : list (string * Z))   (* [client.subscribe], topic and QoS *)
| OpenRead (path : string)                 (* [open(path, 'r')] *)
| Request (method url : string)            (* [requests.request] *)
| Connect (host : string) (port keepalive : Z)
| LoopForever.

(** A CSV file is the list of the rows written to it, a row the list of its
    cells; how a cell is printed and quoted is left to the [csv] module.
    [files] holds the regular files that are there, each under its
    canonical path: two names of one file are one entry. *)
Record world : Type := World {
  files : gmap string (list (list pyval));
  trace : list event;
}.

(** What a file name and a text meet on the disk: the canonical path of the
    file a name leads to ([os.path.realpath]); the [OSError] that
    [open(name, 'a')] raises there, if it does (the name of a directory, a
    directory that is missing, a file the process may not write); and
    whether the encoding of the files can take the text of a value.  A file
    that [open] opens is a regular file that takes what is written to it:
    devices, pipes and full disks are left out. *)
Record disk : Type := Disk {
  realpath : string -> string;
  open_error : string -> option exn;
  encodable : pyval -> bool;
}.

(** Computations that read and change the world and may raise. *)
Definition M (A : Type) : Type := world -> result A * world.

Definition ret {A} (a : A) : M A := fun w => (Ok a, w).
Definition raise {A} (e : exn) : M A := fun w => (Raise e, w).
Definition bind {A B} (m : M A) (k : A -> M B) : M B :=
  fun w => match m w with
           | (Ok a, w') => k a w'
           | (Raise e, w') => (Raise e, w')
           end.
Definition lift {A} (r : result A) : M A := fun w => (r, w).

Declare Scope py_scope.
Delimit Scope py_scope with py.
Notation "x <- m ; k" := (bind m (fun x => k))
  (at level 20, m at level 100, k at level 200, only parsing) : py_scope.
Notation "m ;; k" := (bind m (fun _ => k))
  (at level 100, k at level 200, only parsing, right associativity) : py_scope.
Local Open Scope py_scope.

(** [try: body  except (cls, ...) as e: handler  except ...]: the first
    clause naming a class of the exception handles it; an exception no
    clause names goes on up. *)
Definition clause (A : Type) : Type := (list exn_class * (exn -> M A))%type.

Fixpoint handle {A} (clauses : list (clause A)) (e : exn) : M A :=
  match clauses with
  | [] => raise e
  | (classes, handler) :: rest =>
      if existsb (isinstance_exn e) classes then handler e
      else handle rest e
  end.

Definition try_except {A} (body : M A) (clauses : list (clause A)) : M A :=
  fun w => match body w with
           | (Raise e, w') => handle clauses e w'
           | finished => finished
           end.

Definition emit (e : event) : M unit :=
  fun w => (Ok tt, World (files w) (trace w ++ [e])%list).
Definition logging (r : log_record) : M unit := emit (Log r).

(** The events of a given kind in a trace. *)
Definition sleeps (t : list event) : list Z :=
  flat_map (fun e => match e with Sleep d => [d] | _ => [] end) t.
Definition logs (t : list event) : list log_record :=
  flat_map (fun e => match e with Log r => [r] | _ => [] end) t.
Definition subscriptions (t : list event) : list (list (string * Z)) :=
  flat_map (fun e => match e with Subscribe ts => [ts] | _ => [] end) t.
Definition reconnects (t : list event) : nat :=
  length (List.filter (fun e => match e with Reconnect => true | _ => false end) t).
Definition error_logs (t : list event) : list log_record :=
  List.filter (fun r => match level_of r with ERROR => true | _ => false end)
    (logs t).

(** ** The record sink: [append_tick_to_csv]

    The function has the same text in [test_cli.py] (lines 17-24) and in
    [stream.py] (lines 18-26). *)

Definition fieldnames : list string :=
  ["symbol"; "matchPrice"; "matchQtty"; "time"; "side"; "session"; "low";
   "open"; "lastUpdated"; "volume"; "close"; "type"; "high"].

Module DictWriter.

(** [csv.DictWriter(csvfile, fieldnames=fieldnames)] with its defaults
    [restval=""] and [extrasaction="raise"]. *)
Definition restval : pyval := PyStr "".

(** [rowdict.keys() - self.fieldnames]. *)
Definition wrong_fields (rowdict : gmap string pyval) : gset string :=
  dom rowdict ∖ list_to_set fieldnames.

(** [_dict_to_list]: a key outside the field names is refused; a field the
    row lacks gets [restval].  (The text of the [ValueError] goes on to list
    the wrong fields.)  A row that is no dictionary has no [keys]. *)
Definition _dict_to_list (rowdict : pyval) : result (list pyval) :=
  match rowdict with
  | PyDict d =>
      if decide (wrong_fields d = ∅)
      then Ok (map (fun key => default restval (d !! key)) fieldnames)
      else Raise (Exn ValueError "dict contains fields not in fieldnames")
  | _ =>
      Raise (Exn AttributeError
               ("'" ++ type_name rowdict ++ "' object has no attribute 'keys'"))
  end.

(** Whether the line of a row can be written: the file is a text file in
    the encoding of the locale, and a cell whose text that encoding cannot
    take makes the write raise [UnicodeEncodeError] before anything of the
    line is written.  The text of [None], of a boolean and of a number is
    plain ASCII, as is a string of ASCII characters; every encoding takes
    those. *)
Definition is_ascii (s : string) : bool :=
  forallb (fun c => (nat_of_ascii c <? 128)%nat) (list_ascii_of_string s).

Definition cell_encodable (fs : disk) (cell : pyval) : bool :=
  match cell with
  | PyNone | PyBool _ | PyInt _ | PyFloat _ => true
  | PyStr s => is_ascii s || encodable fs cell
  | PyList _ | PyTuple _ | PyDict _ => encodable fs cell
  end.

(** [self.writer.writerow(row)]: the row as it goes to the file.  (The text
    of the [UnicodeEncodeError] goes on to name the codec, the character
    and its position.) *)
Definition writer_writerow (fs : disk) (row : list pyval)
    : result (list pyval) :=
  if forallb (cell_encodable fs) row then Ok row
  else Raise (Exn UnicodeEncodeError "codec can't encode character").

(** [writerow] on the open file [csvfile]. *)
Definition writerow (fs : disk) (csvfile : string) (rowdict : pyval) : M unit :=
  row <- lift (_dict_to_list rowdict) ;
  row <- lift (writer_writerow fs row) ;
  fun w =>
    (Ok tt,
     World (<[csvfile := (default [] (files w !! csvfile) ++ [row])%list]>
              (files w))
           (trace w)).

(** [writeheader] is [writerow(dict(zip(fieldnames, fieldnames)))]. *)
Definition header : pyval :=
  PyDict (list_to_map (zip fieldnames (map PyStr fieldnames))).

Definition writeheader (fs : disk) (csvfile : string) : M unit :=
  writerow fs csvfile header.

End DictWriter.

(** [os.path.isfile(filename)]: the name leads to a regular file that is
    there. *)
Definition isfile (fs : disk) (filename : string) : M bool :=
  fun w => (Ok (bool_decide (is_Some (files w !! realpath fs filename))), w).

(** [open(filename, 'a', newline='')]: the error of the disk is raised, and
    nothing is created; otherwise an absent file is created empty.  The
    value is the open file, given by its canonical path. *)
Definition open_append (fs : disk) (filename : string) : M string :=
  match open_error fs filename with
  | Some e => raise e
  | None =>
      fun w =>
        let csvfile := realpath fs filename in
        (Ok csvfile,
         World (<[csvfile := default [] (files w !! csvfile)]> (files w))
               (trace w))
  end.

Definition append_tick_to_csv (fs : disk) (tick_data : pyval)
    (filename : string) : M unit :=
  file_exists <- isfile fs filename ;
  csvfile <- open_append fs filename ;
  (if negb file_exists then DictWriter.writeheader fs csvfile else ret tt) ;;
  DictWriter.writerow fs csvfile tick_data.

Arguments append_tick_to_csv : simpl never.

Definition default_filename : string := "tick_data.csv".

(** The row [writeheader] writes and the row [writerow] writes for a record
    it accepts. *)
Definition header_row : list pyval := map PyStr fieldnames.
Definition row_of (tick_data : gmap string pyval) : list pyval :=
  map (fun key => default DictWriter.restval (tick_data !! key)) fieldnames.

(** ** The message callback: [MQTTClient.on_message]

    The method has the same text in [test_cli.py] (lines 178-192) and in
    [stream.py] (lines 98-112).  A message is given by what
    [json.loads(msg.payload.decode())] does on its bytes: the decoded value,
    or the exception raised ([UnicodeDecodeError] by [decode],
    [JSONDecodeError] by [json.loads]). *)

Record MQTTMessage : Type := Message {
  topic : string;
  decoded : result pyval;
}.

Section OnMessage.

Variable fs : disk.
Variable float_literal : string -> bool.

Definition on_message (msg : MQTTMessage) : M unit :=
  payload <- lift (decoded msg) ;
  has_price <- lift (contains "matchPrice" payload) ;
  has_both <- (if has_price then lift (contains "matchQtty" payload)
               else ret false) ;
  if has_both then
    try_except
      (price <- lift (getitem payload "matchPrice") ;
       price <- lift (float float_literal price) ;
       payload <- lift (setitem payload "matchPrice" price) ;
       qtty <- lift (getitem payload "matchQtty") ;
       qtty <- lift (float float_literal qtty) ;
       payload <- lift (setitem payload "matchQtty" qtty) ;
       append_tick_to_csv fs payload default_filename ;;
       logging (LogTick payload))
      [([ValueError], fun _ => logging LogInvalidTick)]
  else ret tt.

End OnMessage.

(** ** What the scripts find outside *)

(** An HTTP response: its status and what [response.json()] gives. *)
Record response : Type := Response {
  status_code : Z;
  json : result pyval;
}.

(** [response.raise_for_status()]: [HTTPError] for a status of 400 to 599,
    nothing otherwise.  (The text of the error goes on to name the status,
    the reason and the URL.) *)
Definition raise_for_status (r : response) : result unit :=
  if (400 <=? status_code r)%Z && (status_code r <? 600)%Z
  then Raise (Exn HTTPError "Client or Server Error")
  else Ok tt.

(** What is found at a path that is there, when it is opened for reading
    and handed to [yaml.safe_load]: [open], the read or the loader raises
    an exception that is no [yaml.YAMLError] (the path is a directory, the
    process may not read the file, its bytes do not decode, a date in it
    does not exist); or the document is refused with a [yaml.YAMLError];
    or it is loaded. *)
Inductive yaml_document : Type :=
| Unreadable (e : exn)
| Unparseable (problem : string)
| Loaded (value : pyval).

Definition yaml_result (doc : yaml_document) : result pyval :=
  match doc with
  | Unreadable e => Raise e
  | Unparseable problem => Raise (Exn YAMLError problem)
  | Loaded value => Ok value
  end.

(** The surroundings of a run: what is at each path (no entry: no such
    file) with the YAML document a file holds, the answers of the two
    DNSE endpoints, the number [random.randint] draws, and whether the
    first connection to the broker raises. *)
Record environment : Type := Environment {
  safe_load : string -> option yaml_document;
  post_auth : pyval -> pyval -> result response;
  get_me : pyval -> result response;
  randint : Z;
  broker_connect : option exn;
}.

(** The paho client handed to the callbacks: what [is_connected()] answers
    and what the k-th call of [reconnect()] does ([None]: it returns). *)
Record Client : Type := PahoClient {
  is_connected : bool;
  reconnect_result : nat -> option exn;
}.

(** [time.sleep(seconds)] on an integer: a negative delay is refused with
    [ValueError], and one that does not fit the signed 64-bit count of
    nanoseconds the clock works with -- 9223372037 seconds or more -- with
    [OverflowError].  Just below that bound -- closer to it than the time
    the system has been running -- the clock of the system cannot tell the
    end of the delay and the call fails with [OSError]; that band is not
    modelled, and the properties that need a sleep to go through take
    their delays under [longest_delay], far from it. *)
Definition sleep_refusal (seconds : Z) : option exn :=
  if (seconds <? 0)%Z
  then Some (Exn ValueError "sleep length must be non-negative")
  else if (9223372037 <=? seconds)%Z
  then Some (Exn OverflowError "timestamp too large to convert to C _PyTime_t")
  else None.

Definition sleep (seconds : Z) : M unit :=
  match sleep_refusal seconds with
  | Some e => raise e
  | None => emit (Sleep seconds)
  end.

(** [client.reconnect()]: the call is recorded, then it returns or raises. *)
Definition reconnect (client : Client) : M unit :=
  fun w =>
    let k := reconnects (trace w) in
    match reconnect_result client k with
    | None => emit Reconnect w
    | Some e => (emit Reconnect ;; raise e) w
    end.

Definition auth_url : string :=
  "https://services.entrade.com.vn/dnse-user-service/api/auth".
Definition me_url : string :=
  "https://services.entrade.com.vn/dnse-user-service/api/me".

(** The delivery-quality level [SubscribeOptions(qos=2)] asks for. *)
Definition qos2 : Z := 2.

(** ** [connector/dnse/test_cli.py] *)

Module TestCli.

Section WithEnvironment.

Variable env : environment.

(** [yaml_creds] (lines 27-54). *)
Definition yaml_creds (path : string) : M (pyval * pyval) :=
  try_except
    (emit (OpenRead path) ;;
     match safe_load env path with
     | None =>
         raise (Exn FileNotFoundError
                  ("[Errno 2] No such file or directory: '" ++ path ++ "'"))
     | Some document =>
         creds <- lift (yaml_result document) ;
         if negb (is_dict creds)
         then raise (Exn ValueError
                "The credentials file format is incorrect. Expected a dictionary.")
         else
           username <- lift (getitem creds "usr") ;
           password <- lift (getitem creds "pwd") ;
           ret (username, password)
     end)
    [([FileNotFoundError],
      fun _ => raise (Exn FileNotFoundError
                        ("The file " ++ path ++ " does not exist.")));
     ([YAMLError],
      fun e => raise (Exn ValueError
                        ("Error parsing the YAML file: " ++ str_exn e)));
     ([KeyError],
      fun e => raise (Exn KeyError
                        ("Missing required key in the credentials file: "
                         ++ str_exn e)))].

(** [Auth] (lines 56-111): the token and the investor id are fetched when
    the object is built. *)
Record Auth : Type := MkAuth {
  username : pyval;
  password : pyval;
  token : pyval;
  investor_id : pyval;
}.

Definition _get_token (username password : pyval) : M pyval :=
  emit (Request "POST" auth_url) ;;
  response <- lift (post_auth env username password) ;
  if (status_code response =? 200)%Z then
    body <- lift (json response) ;
    lift (getitem body "token")
  else
    lift (raise_for_status response) ;;
    ret PyNone.

Definition _get_investorid (token : pyval) : M pyval :=
  emit (Request "GET" me_url) ;;
  response <- lift (get_me env token) ;
  if (status_code response =? 200)%Z then
    investor_data <- lift (json response) ;
    lift (getitem investor_data "investorId")
  else
    lift (raise_for_status response) ;;
    ret PyNone.

Definition Auth__init__ (username password : pyval) : M Auth :=
  token <- _get_token username password ;
  investor_id <- _get_investorid token ;
  ret (MkAuth username password token investor_id).

(** [Config] (lines 113-129). *)
Record Config : Type := MkConfig {
  auth : Auth;
  BROKER : string;
  PORT : Z;
  TOPICS : list string;
  CLIENT_ID : Z;   (* the number after "python-json-mqtt-ws-sub-" *)
  USERNAME : pyval;
  PASSWORD : pyval;
  FIRST_RECONNECT_DELAY : Z;
  RECONNECT_RATE : Z;
  MAX_RECONNECT_COUNT : Z;
  MAX_RECONNECT_DELAY : Z;
}.

Definition Config__init__ (creds_path : string) (topics : list string) : M Config :=
  creds <- yaml_creds creds_path ;
  auth <- Auth__init__ (fst creds) (snd creds) ;
  ret {| auth := auth;
         BROKER := "datafeed-lts.dnse.com.vn";
         PORT := 443;
         TOPICS := topics;
         CLIENT_ID := randint env;
         USERNAME := investor_id auth;
         PASSWORD := token auth;
         FIRST_RECONNECT_DELAY := 1;
         RECONNECT_RATE := 2;
         MAX_RECONNECT_COUNT := 12;
         MAX_RECONNECT_DELAY := 60 |}.

End WithEnvironment.

(** [MQTTClient] (lines 131-192). *)
Record MQTTClient : Type := MkMQTTClient {
  config : Config;
  FLAG_EXIT : bool;
}.

Definition MQTTClient__init__ (config : Config) : MQTTClient :=
  {| config := config; FLAG_EXIT := false |}.

Definition connect_mqtt (env : environment) (self : MQTTClient) : M unit :=
  emit (Connect (BROKER (config self)) (PORT (config self)) 120) ;;
  match broker_connect env with
  | Some e => raise e
  | None => ret tt
  end.

Definition on_connect (self : MQTTClient) (client : Client) (rc : Z) : M unit :=
  if (rc =? 0)%Z && is_connected client then
    logging LogConnected ;;
    let topic_tuple := map (fun topic => (topic, qos2)) (TOPICS (config self)) in
    emit (Subscribe topic_tuple)
  else
    logging (LogConnectFailed rc).

(** How the [while] loop of [on_disconnect] ends: by the [return] in its
    body, or with its condition false.  [Unfinished] stands for a loop cut
    short by the bound on unfoldings, which [on_disconnect] never is. *)
Inductive loop_end : Type :=
| Returned
| Exhausted (reconnect_count : Z)
| Unfinished.

Fixpoint reconnect_loop (fuel : nat) (cfg : Config) (client : Client)
    (reconnect_count reconnect_delay : Z) : M loop_end :=
  if (reconnect_count <? MAX_RECONNECT_COUNT cfg)%Z then
    match fuel with
    | O => ret Unfinished
    | S fuel' =>
        logging (LogReconnecting reconnect_delay) ;;
        sleep reconnect_delay ;;
        reconnected <-
          try_except
            (reconnect client ;;
             logging LogReconnected ;;
             ret true)
            [([Exception],
              fun err => logging (LogReconnectFailed err) ;; ret false)] ;
        if reconnected : bool then ret Returned
        else
          let reconnect_delay := (reconnect_delay * RECONNECT_RATE cfg)%Z in
          let reconnect_delay := Z.min reconnect_delay (MAX_RECONNECT_DELAY cfg) in
          let reconnect_count := (reconnect_count + 1)%Z in
          reconnect_loop fuel' cfg client reconnect_count reconnect_delay
    end
  else ret (Exhausted reconnect_count).

Definition on_disconnect (self : MQTTClient) (client : Client) (rc : Z)
    : M MQTTClient :=
  logging (LogDisconnected rc) ;;
  let reconnect_count := 0%Z in
  let reconnect_delay := FIRST_RECONNECT_DELAY (config self) in
  ended <- reconnect_loop (Z.to_nat (MAX_RECONNECT_COUNT (config self)))
             (config self) client reconnect_count reconnect_delay ;
  match ended with
  | Returned | Unfinished => ret self
  | Exhausted reconnect_count =>
      logging (LogGivingUp reconnect_count) ;;
      ret {| config := config self; FLAG_EXIT := true |}
  end.

(** The transport calls [on_disconnect] once per lost connection, one call
    after the other on the same object. *)
Fixpoint handle_disconnects (self : MQTTClient) (client : Client)
    (rcs : list Z) : M MQTTClient :=
  match rcs with
  | [] => ret self
  | rc :: rcs' =>
      self' <- on_disconnect self client rc ;
      handle_disconnects self' client rcs'
  end.

(** The [topics] argument of [run]: a string, given with what
    [ast.literal_eval] does on it, or a collection given by its items, or an
    object that cannot be iterated. *)
Inductive topics_arg : Type :=
| TopicsStr (text : string) (literal_eval : result pyval)
| TopicsCollection (items : list pyval)
| TopicsNotIterable (type : string).

Definition str_of (v : pyval) : string :=
  match v with PyStr s => s | _ => "" end.

(** Iterating over the argument ([for topic in topics]). *)
Definition items_of (topics : topics_arg) : result (list pyval) :=
  match topics with
  | TopicsStr text _ =>
      Ok (map (fun c => PyStr (String c EmptyString)) (list_ascii_of_string text))
  | TopicsCollection items => Ok items
  | TopicsNotIterable type =>
      Raise (Exn TypeError ("'" ++ type ++ "' object is not iterable"))
  end.

(** Lines 198-211 of [run]: from the argument to [topics_tuple]. *)
Definition parse_topics (topics : topics_arg) : M (list string) :=
  topics <-
    match topics with
    | TopicsStr _ literal_eval =>
        try_except
          (topics <- lift literal_eval ;
           match topics with
           | PyList items => ret (TopicsCollection items)
           | _ => raise (Exn ValueError "Topics should be a list of strings.")
           end)
          [([ValueError; SyntaxError],
            fun e => raise (Exn ValueError
                              ("Failed to parse topics: " ++ str_exn e)))]
    | _ => ret topics
    end ;
  items <- lift (items_of topics) ;
  if negb (forallb is_str items)
  then raise (Exn ValueError "All topics must be strings.")
  else ret (map str_of items).

(** [run] (lines 195-217).  [loop_forever] is recorded as entered; what the
    broker then sends is handled by the callbacks above. *)
Definition run (env : environment) (creds_path : string) (topics : topics_arg)
    : M unit :=
  topics_tuple <- parse_topics topics ;
  logging (LogParsedTopics topics_tuple) ;;
  config <- Config__init__ env creds_path topics_tuple ;
  let my_mqtt_client := MQTTClient__init__ config in
  connect_mqtt env my_mqtt_client ;;
  emit LoopForever.

End TestCli.

(** ** [connector/dnse/stream.py]

    [append_tick_to_csv] and [on_message] are the definitions above. *)

Module Stream.

Definition creds_path : string :=
  "/content/drive/MyDrive/Colab Notebooks/config/dnse_creds.yaml".

Section WithEnvironment.

Variable env : environment.

(** [dnse_auth] (lines 35-42): there is no [else]; a status other than 200
    falls off the end of the function. *)
Definition dnse_auth (username password : pyval) : M pyval :=
  emit (Request "POST" auth_url) ;;
  response <- lift (post_auth env username password) ;
  if (status_code response =? 200)%Z then
    body <- lift (json response) ;
    token <- lift (getitem body "token") ;
    ret token
  else ret PyNone.

(** [account_info] (lines 44-52). *)
Definition account_info (jwt_token : pyval) : M pyval :=
  emit (Request "GET" me_url) ;;
  response <- lift (get_me env jwt_token) ;
  if (status_code response =? 200)%Z then lift (json response)
  else ret PyNone.

(** [Config] (lines 57-63). *)
Record Config : Type := MkConfig {
  BROKER : string;
  PORT : Z;
  TOPICS : list string;
  CLIENT_ID : Z;   (* the number after "python-json-mqtt-" *)
  USERNAME : pyval;
  PASSWORD : pyval;
}.

(** The statements the module runs when it is loaded (lines 28-33 and
    54-63). *)
Definition load_module : M Config :=
  emit (OpenRead creds_path) ;;
  creds <-
    match safe_load env creds_path with
    | None =>
        raise (Exn FileNotFoundError
                 ("[Errno 2] No such file or directory: '" ++ creds_path ++ "'"))
    | Some document => lift (yaml_result document)
    end ;
  username <- lift (getitem creds "usr") ;
  password <- lift (getitem creds "pwd") ;
  jwt_token <- dnse_auth username password ;
  info <- account_info jwt_token ;
  investor_id <- lift (getitem info "investorId") ;
  ret {| BROKER := "datafeed-lts.dnse.com.vn";
         PORT := 443;
         TOPICS := ["plaintext/quotes/derivative/OHLC/1/VN30F1M";
                    "plaintext/quotes/stock/tick/+"];
         CLIENT_ID := randint env;
         USERNAME := investor_id;
         PASSWORD := jwt_token |}.

End WithEnvironment.

(** [MQTTClient.on_connect] (lines 82-88). *)
Definition on_connect (cfg : Config) (client : Client) (rc : Z) : M unit :=
  if (rc =? 0)%Z then
    logging LogConnected ;;
    let topic_tuple := map (fun topic => (topic, qos2)) (TOPICS cfg) in
    emit (Subscribe topic_tuple)
  else
    logging (LogConnectFailed rc).

(** [MQTTClient.on_disconnect] (lines 90-91). *)
Definition on_disconnect (client : Client) (rc : Z) : M unit :=
  logging (LogDisconnected rc).

End Stream.

(** ** Reading the sink *)

(** The rows [append_tick_to_csv] finds once the file is open: those the
    file held, or the header row of a file it creates. *)
Definition start (csvfile : string) (w : world) : list (list pyval) :=
  match files w !! csvfile with
  | None => [header_row]
  | Some rows => rows
  end.

(** The file [on_message] writes to. *)
Definition sink (fs : disk) : string := realpath fs default_filename.

(** What [DictWriter.writerow] makes of a record: the row it writes, or the
    exception it raises -- [ValueError] for a field that is no column,
    [UnicodeEncodeError] for a cell the encoding of the file refuses. *)
Definition written_row (fs : disk) (tick_data : pyval) : result (list pyval) :=
  match DictWriter._dict_to_list tick_data with
  | Ok row => DictWriter.writer_writerow fs row
  | Raise e => Raise e
  end.

(** The cell of a row under a column of the header. *)
Definition cell (row : list pyval) (key : string) : option pyval :=
  snd <$> List.find (fun kv => String.eqb (fst kv) key) (zip fieldnames row).


(** The payload once both fields are coerced. *)
Definition coerced (d : gmap string pyval) (price qtty : pyval)
    : gmap string pyval :=
  <["matchQtty" := qtty]> (<["matchPrice" := price]> d).

(** What the [except ValueError] clause of [on_message] makes of an
    exception raised under its [try]. *)
Definition invalid_tick (e : exn) (w : world) : result unit * world :=
  if isinstance_exn e ValueError
  then (Ok tt, World (files w) (trace w ++ [Log LogInvalidTick])%list)
  else (Raise e, w).

(** What a call of [on_message] leaves in the sink: one more row after those
    [start] gives, or no record row (the file as it was, or a new file with
    its header row only). *)
Definition record_written (fs : disk) (w w' : world) (row : list pyval) : Prop :=
  files w' = <[sink fs := (start (sink fs) w ++ [row])%list]> (files w).

Definition no_record_written (fs : disk) (w w' : world) : Prop :=
  files w' = files w \/
  (files w !! sink fs = None /\
   files w' = <[sink fs := [header_row]]> (files w)).

(** A disk on which every name stands for the file of that name, in a
    working directory the process may write to, with files in ASCII. *)
Definition plain_disk : disk :=
  Disk (fun name => name) (fun _ => None) (fun _ => false).

(** [on_message] takes [msg] from the world [w] to the result [r] and the
    world [w'] on that disk, whatever strings [float] accepts. *)
Definition on_message_gives (msg : MQTTMessage) (w : world)
    (r : result unit) (w' : world) : Prop :=
  forall float_literal, on_message plain_disk float_literal msg w = (r, w').

(** *** Sample messages and worlds *)

Definition tick_topic : string := "plaintext/quotes/stock/tick/HPG".

Definition sample_tick : gmap string pyval :=
  list_to_map [("symbol", PyStr "HPG"); ("matchPrice", PyFloat (FloatLit "27.5"));
               ("matchQtty", PyInt 100); ("side", PyStr "B")].


(** No sink file yet, nothing done yet. *)
Definition fresh_world : world := World ∅ [].

(** The sink file holds its header row. *)
Definition started_world : world :=
  World {[ default_filename := [header_row] ]} [].

(** Whether [DictWriter] takes a record: every field is a column, and the
    encoding of the file takes every cell of its row. *)
Definition accepted (fs : disk) (d : gmap string pyval) : bool :=
  bool_decide (DictWriter.wrong_fields d = ∅) &&
  forallb (DictWriter.cell_encodable fs) (row_of d).


(** *** The reconnection schedule *)

(** The delays of [n] attempts in a row that start at [delay]. *)
Fixpoint backoff_delays (rate ceiling : Z) (n : nat) (delay : Z) : list Z :=
  match n with
  | O => []
  | S n' => delay :: backoff_delays rate ceiling n' (Z.min (delay * rate) ceiling)
  end.

(** The settings [Config.__init__] fixes. *)
Definition default_backoff (cfg : TestCli.Config) : Prop :=
  TestCli.FIRST_RECONNECT_DELAY cfg = 1 /\ TestCli.RECONNECT_RATE cfg = 2 /\
  TestCli.MAX_RECONNECT_COUNT cfg = 12 /\ TestCli.MAX_RECONNECT_DELAY cfg = 60.

(** The k-th call of [client.reconnect()] raises an error, that is an
    exception that derives from [Exception]. *)
Definition raises_error (client : Client) (k : nat) : Prop :=
  exists e, reconnect_result client k = Some e /\
            isinstance_exn e Exception = true.

(** [self.FLAG_EXIT = True]. *)
Definition exit_requested (self : TestCli.MQTTClient) : TestCli.MQTTClient :=
  {| TestCli.config := TestCli.config self; TestCli.FLAG_EXIT := true |}.

(** A client object as [run] builds it, and two brokers: one that cannot be
    reached again, one that comes back at the fourth attempt. *)
Definition sample_config : TestCli.Config :=
  {| TestCli.auth :=
       TestCli.MkAuth (PyStr "0900000000") (PyStr "secret")
         (PyStr "jwt") (PyStr "1000001");
     TestCli.BROKER := "datafeed-lts.dnse.com.vn";
     TestCli.PORT := 443;
     TestCli.TOPICS := ["plaintext/quotes/derivative/OHLC/1/VN30F1M";
                        "plaintext/quotes/stock/tick/+"];
     TestCli.CLIENT_ID := 7;
     TestCli.USERNAME := PyStr "1000001";
     TestCli.PASSWORD := PyStr "jwt";
     TestCli.FIRST_RECONNECT_DELAY := 1;
     TestCli.RECONNECT_RATE := 2;
     TestCli.MAX_RECONNECT_COUNT := 12;
     TestCli.MAX_RECONNECT_DELAY := 60 |}.

Definition sample_self : TestCli.MQTTClient :=
  TestCli.MQTTClient__init__ sample_config.

Definition refused : exn := Exn ConnectionError "[Errno 111] Connection refused".

Definition unreachable_broker : Client :=
  PahoClient false (fun _ => Some refused).

Definition broker_back_at_fourth : Client :=
  PahoClient false (fun k => if (k <? 3)%nat then Some refused else None).

(** The delays of the twelve attempts under the default settings. *)
Definition default_delays : list Z := [1; 2; 4; 8; 16; 32; 60; 60; 60; 60; 60; 60].

(** *** Sample surroundings *)

Definition sample_creds : pyval :=
  PyDict (list_to_map [("usr", PyStr "0900000000"); ("pwd", PyStr "secret")]).

(** The credentials file is there and the endpoints answer 200. *)
Definition sample_env : environment :=
  {| safe_load := fun path =>
       if String.eqb path "creds.yaml" then Some (Loaded sample_creds) else None;
     post_auth := fun _ _ =>
       Ok (Response 200 (Ok (PyDict {[ "token" := PyStr "jwt" ]})));
     get_me := fun _ =>
       Ok (Response 200 (Ok (PyDict {[ "investorId" := PyStr "1000001" ]})));
     randint := 7;
     broker_connect := None |}.

(** The authentication endpoint refuses the password with 401; the account
    endpoint refuses a request that carries no token. *)
Definition unauthorized : response :=
  Response 401 (Ok (PyDict {[ "message" := PyStr "Unauthorized" ]})).

Definition wrong_password_env : environment :=
  {| safe_load := safe_load sample_env;
     post_auth := fun _ _ => Ok unauthorized;
     get_me := fun _ => Ok unauthorized;
     randint := 7;
     broker_connect := None |}.

(** The same for [stream.py], which reads its credentials at a fixed path. *)
Definition stream_wrong_password_env : environment :=
  {| safe_load := fun path =>
       if String.eqb path Stream.creds_path then Some (Loaded sample_creds)
       else None;
     post_auth := fun _ _ => Ok unauthorized;
     get_me := fun _ => Ok unauthorized;
     randint := 7;
     broker_connect := None |}.

(** The authentication endpoint answers 204, with no content. *)
Definition no_content_env : environment :=
  {| safe_load := safe_load sample_env;
     post_auth := fun _ _ =>
       Ok (Response 204 (Raise (Exn JSONDecodeError "Expecting value")));
     get_me := fun _ => Ok unauthorized;
     randint := 7;
     broker_connect := None |}.

(** A client that reports it is not connected, as [is_connected()] does once
    the connection is gone again. *)
Definition dropped_client : Client := PahoClient false (fun _ => None).

(** A topics string that is a well-formed Python expression on which
    [ast.literal_eval] raises [TypeError]: the key of the dictionary display
    is a list. *)
Definition unhashable_topics : TestCli.topics_arg :=
  TestCli.TopicsStr "{[1]: 2}" (Raise (Exn TypeError "unhashable type: 'list'")).

(** A topics list with an element that is no string. *)
Definition mixed_topics : list pyval :=
  [PyStr "plaintext/quotes/stock/tick/+"; PyInt 1].

(** The authentication endpoint refuses the password, in [test_cli.py]. *)
Definition http_error : exn := Exn HTTPError "Client or Server Error".


(** ** Further readings of the sink, the trace and the schedule *)







(** A tick whose price is the text N/A, and a reading of [float] on
    strings that refuses that text. *)
Definition na_price_tick : gmap string pyval :=
  <["matchPrice" := PyStr "N/A"]> sample_tick.

Definition refuses_na (s : string) : bool := negb (String.eqb s "N/A").

(** A payload that is a JSON array of the two field names. *)
Definition array_payload : MQTTMessage :=
  Message tick_topic (Ok (PyList [PyStr "matchPrice"; PyStr "matchQtty"])).

(** The time slept in all. *)
Definition total (delays : list Z) : Z := foldr Z.add 0 delays.

(** The delay before attempt [k] (from 0) in closed form: the first delay
    as configured, every later one the first times the rate to the power
    [k], cut at the ceiling. *)
Definition delay_at (first rate ceiling : Z) (k : nat) : Z :=
  match k with
  | O => first
  | S _ => Z.min (first * rate ^ Z.of_nat k) ceiling
  end.

(** What [run] does from its start to the receive loop, in order. *)
Definition startup_sequence (creds_path : string) (topics : list string)
    : list event :=
  [Log (LogParsedTopics topics); OpenRead creds_path; Request "POST" auth_url;
   Request "GET" me_url; Connect "datafeed-lts.dnse.com.vn" 443 120;
   LoopForever].

(** The [__main__] block of [test_cli.py] (lines 220-227): [argparse] gives
    the path and the topics as a list of strings, the two default topics
    when [--topics] is not given. *)
Definition default_topics : list string :=
  ["plaintext/quotes/derivative/OHLC/1/VN30F1M"; "plaintext/quotes/stock/tick/+"].

Definition main (env : environment) (creds_path : string)
    (topics : option (list string)) : M unit :=
  let args_topics := default default_topics topics in
  TestCli.run env creds_path (TestCli.TopicsCollection (map PyStr args_topics)).

(** A broker that is interrupted from the keyboard during the third
    attempt, after two refusals. *)
Definition interrupted : exn := Exn KeyboardInterrupt "".

Definition interrupted_broker : Client :=
  PahoClient false (fun k => if (k <? 2)%nat then Some refused
                             else Some interrupted).

(** A client object whose settings were changed after [Config.__init__]:
    first delay 2, rate 3, at most 5 attempts, ceiling 100. *)
Definition patient_config : TestCli.Config :=
  {| TestCli.auth := TestCli.auth sample_config;
     TestCli.BROKER := TestCli.BROKER sample_config;
     TestCli.PORT := TestCli.PORT sample_config;
     TestCli.TOPICS := TestCli.TOPICS sample_config;
     TestCli.CLIENT_ID := TestCli.CLIENT_ID sample_config;
     TestCli.USERNAME := TestCli.USERNAME sample_config;
     TestCli.PASSWORD := TestCli.PASSWORD sample_config;
     TestCli.FIRST_RECONNECT_DELAY := 2;
     TestCli.RECONNECT_RATE := 3;
     TestCli.MAX_RECONNECT_COUNT := 5;
     TestCli.MAX_RECONNECT_DELAY := 100 |}.

Definition patient_self : TestCli.MQTTClient :=
  TestCli.MQTTClient__init__ patient_config.

(** Surroundings in which [stream.py] finds its credentials file and the
    endpoints answer 200. *)
Definition stream_sample_env : environment :=
  {| safe_load := fun path =>
       if String.eqb path Stream.creds_path then Some (Loaded sample_creds)
       else None;
     post_auth := post_auth sample_env;
     get_me := get_me sample_env;
     randint := 7;
     broker_connect := None |}.

(** A bound under which [time.sleep] takes every delay that is not
    negative, however long the system has been up: [2^31] seconds, some 68
    years. *)
Definition longest_delay : Z := 2 ^ 31.

(** Two client objects that differ at most in [FLAG_EXIT]. *)
Definition same_config (s1 s2 : TestCli.MQTTClient) : Prop :=
  TestCli.config s1 = TestCli.config s2.

(** Surroundings in which the path given for the credentials is that of a
    directory. *)
Definition is_a_directory : exn :=
  Exn IsADirectoryError "[Errno 21] Is a directory: 'config'".

Definition directory_env : environment :=
  {| safe_load := fun path =>
       if String.eqb path "config" then Some (Unreadable is_a_directory)
       else safe_load sample_env path;
     post_auth := post_auth sample_env;
     get_me := get_me sample_env;
     randint := 7;
     broker_connect := None |}.

(** * Properties *)

(** ** The sink *)

Lemma header_accepted : DictWriter._dict_to_list DictWriter.header = Ok header_row.
Proof. vm_compute. reflexivity. Qed.

Lemma header_written fs : written_row fs DictWriter.header = Ok header_row.
Proof. unfold written_row. rewrite header_accepted. reflexivity. Qed.

Lemma written_row_dict fs (d : gmap string pyval) :
  written_row fs (PyDict d) =
  if decide (DictWriter.wrong_fields d = ∅)
  then if forallb (DictWriter.cell_encodable fs) (row_of d) then Ok (row_of d)
       else Raise (Exn UnicodeEncodeError "codec can't encode character")
  else Raise (Exn ValueError "dict contains fields not in fieldnames").
Proof.
  unfold written_row. cbn [DictWriter._dict_to_list].
  by destruct (decide (DictWriter.wrong_fields d = ∅)).
Qed.

Lemma written_row_accepted fs (d : gmap string pyval) :
  written_row fs (PyDict d) =
  if accepted fs d then Ok (row_of d)
  else if decide (DictWriter.wrong_fields d = ∅)
       then Raise (Exn UnicodeEncodeError "codec can't encode character")
       else Raise (Exn ValueError "dict contains fields not in fieldnames").
Proof.
  rewrite written_row_dict. unfold accepted.
  destruct (decide (DictWriter.wrong_fields d = ∅)) as [Hw|Hw].
  - rewrite bool_decide_eq_true_2 by done. cbn [andb].
    by destruct (forallb _ _).
  - by rewrite bool_decide_eq_false_2 by done.
Qed.

(** What [DictWriter] refuses of a dictionary it refuses with a
    [ValueError]. *)
Lemma written_row_refusal fs (d : gmap string pyval) e :
  written_row fs (PyDict d) = Raise e -> isinstance_exn e ValueError = true.
Proof.
  rewrite written_row_dict.
  destruct (decide _); [destruct (forallb _ _)|]; by intros [= <-].
Qed.

(** [append_tick_to_csv] on any value: the error of [open] goes up and
    nothing is touched; otherwise the file is opened (and, when new, given
    its header row), and the row is written, or the refusal of [DictWriter]
    goes up. *)
Lemma append_tick_to_csv_any fs tick_data filename w :
  append_tick_to_csv fs tick_data filename w =
  match open_error fs filename with
  | Some e => (Raise e, w)
  | None =>
      let csvfile := realpath fs filename in
      match written_row fs tick_data with
      | Ok row =>
          (Ok tt,
           World (<[csvfile := (start csvfile w ++ [row])%list]> (files w))
                 (trace w))
      | Raise e =>
          (Raise e, World (<[csvfile := start csvfile w]> (files w)) (trace w))
      end
  end.
Proof.
  unfold append_tick_to_csv, isfile, open_append, DictWriter.writeheader, bind.
  destruct (open_error fs filename) as [e|]; [reflexivity|].
  cbn zeta. unfold DictWriter.writerow, bind, lift, ret, start.
  rewrite header_accepted.
  change (DictWriter.writer_writerow fs header_row) with (Ok (A := list pyval) header_row).
  unfold written_row.
  destruct (files w !! realpath fs filename) as [rows|] eqn:Hf; cbn;
    destruct (DictWriter._dict_to_list tick_data) as [row|e]; cbn;
    rewrite ?lookup_insert_eq, ?insert_insert_eq; cbn;
    try destruct (DictWriter.writer_writerow fs row) as [row'|e]; cbn;
    rewrite ?lookup_insert_eq, ?insert_insert_eq; reflexivity.
Qed.

(** ** [on_message] on a payload that is a JSON object *)

Lemma on_message_dict fs float_literal topic (d : gmap string pyval) w :
  on_message fs float_literal (Message topic (Ok (PyDict d))) w =
  match d !! "matchPrice", d !! "matchQtty" with
  | Some price, Some qtty =>
      match float float_literal price with
      | Raise e => invalid_tick e w
      | Ok price' =>
          match float float_literal qtty with
          | Raise e => invalid_tick e w
          | Ok qtty' =>
              let tick := coerced d price' qtty' in
              match open_error fs default_filename with
              | Some e => invalid_tick e w
              | None =>
                  if accepted fs tick
                  then (Ok tt,
                        World (<[sink fs :=
                                   (start (sink fs) w ++ [row_of tick])%list]>
                                 (files w))
                              (trace w ++ [Log (LogTick (PyDict tick))])%list)
                  else (Ok tt,
                        World (<[sink fs := start (sink fs) w]> (files w))
                              (trace w ++ [Log LogInvalidTick])%list)
              end
          end
      end
  | _, _ => (Ok tt, w)
  end.
Proof.
  unfold on_message, bind, lift, ret, try_except. cbn.
  destruct (d !! "matchPrice") as [price|] eqn:Hp; cbn.
  2: { reflexivity. }
  destruct (d !! "matchQtty") as [qtty|] eqn:Hq; cbn.
  2: { reflexivity. }
  destruct (float float_literal price) as [price'|e] eqn:Hfp; cbn.
  2: { unfold invalid_tick. rewrite orb_false_r.
       destruct (isinstance_exn e ValueError); reflexivity. }
  rewrite lookup_insert_ne by done. rewrite Hq.
  destruct (float float_literal qtty) as [qtty'|e] eqn:Hfq; cbn.
  2: { unfold invalid_tick. rewrite orb_false_r.
       destruct (isinstance_exn e ValueError); reflexivity. }
  fold (coerced d price' qtty').
  rewrite append_tick_to_csv_any.
  destruct (open_error fs default_filename) as [e|].
  { cbn. unfold invalid_tick. rewrite orb_false_r.
    destruct (isinstance_exn e ValueError); reflexivity. }
  cbn zeta. fold (sink fs).
  pose proof (written_row_refusal fs (coerced d price' qtty')) as Hrefusal.
  rewrite written_row_accepted in *.
  destruct (accepted fs (coerced d price' qtty')); [reflexivity|].
  destruct (decide _); cbn; rewrite orb_false_r;
    (rewrite Hrefusal by reflexivity); reflexivity.
Qed.

Lemma on_message_not_dict fs float_literal msg w :
  (forall d, decoded msg <> Ok (PyDict d)) ->
  snd (on_message fs float_literal msg w) = w.
Proof.
  intros Hnd. destruct msg as [t [v|e]]; [|reflexivity].
  unfold on_message, bind, lift, ret, try_except. cbn [decoded].
  destruct v as [| | | | s | items | items | d]; try reflexivity.
  - cbn. destruct (str_contains "matchPrice" s); [|reflexivity].
    destruct (str_contains "matchQtty" s); reflexivity.
  - cbn -[existsb]. destruct (existsb _ items); [|reflexivity].
    destruct (existsb _ items); reflexivity.
  - cbn -[existsb]. destruct (existsb _ items); [|reflexivity].
    destruct (existsb _ items); reflexivity.
  - exfalso. by apply (Hnd d).
Qed.

Lemma start_not_extended csvfile w row :
  files w !! csvfile <> Some (start csvfile w ++ [row])%list.
Proof.
  unfold start. destruct (files w !! csvfile) as [rows|]; [|done].
  intros [= Heq]. apply (f_equal length) in Heq.
  rewrite length_app in Heq. cbn in Heq. lia.
Qed.

Lemma record_written_not_kept fs w w' row :
  record_written fs w w' row -> no_record_written fs w w' -> False.
Proof.
  unfold record_written, no_record_written. intros Hw [Hk|[Hn Hk]].
  - rewrite Hw in Hk. apply (f_equal (fun m => m !! sink fs)) in Hk.
    rewrite lookup_insert_eq in Hk. symmetry in Hk.
    by apply start_not_extended in Hk.
  - rewrite Hw in Hk. apply (f_equal (fun m => m !! sink fs)) in Hk.
    rewrite !lookup_insert_eq in Hk. unfold start in Hk. rewrite Hn in Hk.
    discriminate.
Qed.

(** Opening the sink and writing no record leaves no record row: the file
    is as it was, or is new with its header row. *)
Lemma opened_no_record fs w t :
  no_record_written fs w (World (<[sink fs := start (sink fs) w]> (files w)) t).
Proof.
  unfold no_record_written, start. cbn.
  destruct (files w !! sink fs) as [rows|] eqn:Hf.
  - left. by apply insert_id.
  - right. done.
Qed.

Lemma invalid_tick_no_record fs e w :
  no_record_written fs w (snd (invalid_tick e w)).
Proof. unfold invalid_tick. destruct (isinstance_exn e ValueError); by left. Qed.






(** ** Claims on the message callback *)

(** C2: the code at the failing inputs.  An exception leaves [on_message]
    on a payload that does not decode (the decoding stands before the
    [try]), on a price that is [null] and on a payload that is a number
    ([TypeError]), and on a quantity beyond the range of a float
    ([OverflowError]): [except ValueError] catches none of them.  In each
    case the world is left as it was: the message is neither written nor
    logged. *)
Theorem on_message_exceptions_escape :
  (forall fs float_literal topic e w,
      on_message fs float_literal (Message topic (Raise e)) w = (Raise e, w)) /\
  on_message_gives
    (Message tick_topic (Raise (Exn JSONDecodeError "Expecting value")))
    started_world
    (Raise (Exn JSONDecodeError "Expecting value")) started_world /\
  on_message_gives
    (Message tick_topic (Ok (PyDict (<["matchPrice" := PyNone]> sample_tick))))
    started_world
    (Raise (Exn TypeError
              "float() argument must be a string or a real number, not 'NoneType'"))
    started_world /\
  on_message_gives (Message tick_topic (Ok (PyInt 5))) started_world
    (Raise (Exn TypeError "argument of type 'int' is not iterable"))
    started_world /\
  on_message_gives
    (Message tick_topic
       (Ok (PyDict (<["matchQtty" := PyInt (2 ^ 1024)]> sample_tick))))
    started_world
    (Raise (Exn OverflowError "int too large to convert to float"))
    started_world.
Proof.
  split; [reflexivity|]. split; [intros float_literal; reflexivity|].
  split; [intros float_literal; rewrite on_message_dict; reflexivity|].
  split; [intros float_literal; reflexivity|].
  intros float_literal. rewrite on_message_dict. reflexivity.
Qed.

(** C3, as stated, fails: a payload with a price and no quantity is dropped
    and no error-level log entry is produced -- the trace stays empty. *)
Lemma on_message_missing_quantity_not_logged :
  on_message_gives
    (Message tick_topic (Ok (PyDict (delete "matchQtty" sample_tick))))
    fresh_world (Ok tt) fresh_world /\
  error_logs (trace fresh_world) = [].
Proof.
  split; [|reflexivity].
  intros float_literal. rewrite on_message_dict. reflexivity.
Qed.

(** C3, amended.  A decoded payload that lacks [matchPrice] or [matchQtty]
    makes [on_message] return with the world unchanged: nothing is written
    to the sink and no log entry of any level is produced.  And whatever the
    message, [on_message] writes a record row only if the payload is an
    object holding both fields and [float] returns on both; the row is then
    that of the payload with the two values coerced. *)
Theorem on_message_missing_field fs float_literal topic (d : gmap string pyval) w :
  (d !! "matchPrice" = None \/ d !! "matchQtty" = None ->
   on_message fs float_literal (Message topic (Ok (PyDict d))) w = (Ok tt, w)) /\
  (forall msg row,
      record_written fs w (snd (on_message fs float_literal msg w)) row ->
      exists payload price qtty price' qtty',
        decoded msg = Ok (PyDict payload) /\
        payload !! "matchPrice" = Some price /\
        payload !! "matchQtty" = Some qtty /\
        float float_literal price = Ok price' /\
        float float_literal qtty = Ok qtty' /\
        row = row_of (coerced payload price' qtty')).
Proof.
  split.
  - intros Hmissing. rewrite on_message_dict.
    destruct Hmissing as [-> | Hq]; [reflexivity|].
    rewrite Hq. by destruct (d !! "matchPrice").
  - intros msg row Hwritten.
    assert (forall w', no_record_written fs w w' ->
              snd (on_message fs float_literal msg w) = w' -> False) as Hkept.
    { intros w' Hk Heq. rewrite Heq in Hwritten.
      eapply record_written_not_kept; eauto. }
    assert (no_record_written fs w w) as Hsame by (by left).
    destruct msg as [t [[| | | | | | | payload]|e]];
      try (exfalso; apply (Hkept w Hsame);
           apply on_message_not_dict; intros ?; discriminate).
    rewrite on_message_dict in Hwritten, Hkept.
    destruct (payload !! "matchPrice") as [price|] eqn:Hp;
      [|exfalso; by apply (Hkept w Hsame)].
    destruct (payload !! "matchQtty") as [qtty|] eqn:Hq;
      [|exfalso; by apply (Hkept w Hsame)].
    pose proof (invalid_tick_no_record fs) as Hinv.
    destruct (float float_literal price) as [price'|e] eqn:Hfp;
      [|exfalso; by apply (Hkept _ (Hinv e w))].
    destruct (float float_literal qtty) as [qtty'|e] eqn:Hfq;
      [|exfalso; by apply (Hkept _ (Hinv e w))].
    cbn zeta in Hwritten, Hkept.
    destruct (open_error fs default_filename) as [e|];
      [exfalso; by apply (Hkept _ (Hinv e w))|].
    destruct (accepted fs (coerced payload price' qtty')).
    + exists payload, price, qtty, price', qtty'.
      repeat (split; [reflexivity || assumption|]).
      unfold record_written in Hwritten. cbn in Hwritten.
      apply (f_equal (fun m => m !! sink fs)) in Hwritten.
      rewrite !lookup_insert_eq in Hwritten.
      injection Hwritten as Hrows. apply app_inv_head in Hrows.
      by injection Hrows as <-.
    + exfalso. eapply Hkept; [|reflexivity]. apply opened_no_record.
Qed.

Lemma on_message_missing_field_witness :
  on_message_gives (Message tick_topic (Ok (PyDict (delete "matchPrice" sample_tick))))
    started_world (Ok tt) started_world.
Proof.
  intros float_literal.
  apply (on_message_missing_field plain_disk float_literal tick_topic
           (delete "matchPrice" sample_tick) started_world).
  left. reflexivity.
Defined.




(** ** Claims on the sink *)





(** ** The reconnection loop *)

Lemma reconnects_app t1 t2 :
  reconnects (t1 ++ t2) = (reconnects t1 + reconnects t2)%nat.
Proof. unfold reconnects. by rewrite List.filter_app, length_app. Qed.

Lemma sleeps_app t1 t2 : sleeps (t1 ++ t2) = (sleeps t1 ++ sleeps t2)%list.
Proof. unfold sleeps. apply flat_map_app. Qed.

Lemma sleep_accepted delay :
  0 <= delay < 9223372037 -> sleep_refusal delay = None.
Proof.
  intros [Hlo Hhi]. unfold sleep_refusal.
  destruct (Z.ltb_spec delay 0); [lia|].
  destruct (Z.leb_spec 9223372037 delay); [lia | reflexivity].
Qed.

Section Loop.

Variable cfg : TestCli.Config.
Variable client : Client.

Lemma loop_exhausted fuel count delay w :
  TestCli.MAX_RECONNECT_COUNT cfg <= count ->
  TestCli.reconnect_loop fuel cfg client count delay w =
    (Ok (TestCli.Exhausted count), w).
Proof.
  intros Hc. apply Z.ltb_ge in Hc. destruct fuel; cbn; by rewrite Hc.
Qed.

(** One turn of the loop, by what happens in it. *)
Lemma loop_turn fuel count delay w :
  count < TestCli.MAX_RECONNECT_COUNT cfg ->
  TestCli.reconnect_loop (S fuel) cfg client count delay w =
  match sleep_refusal delay with
  | Some e =>
      (Raise e, World (files w) (trace w ++ [Log (LogReconnecting delay)])%list)
  | None =>
    match reconnect_result client (reconnects (trace w)) with
    | None =>
        (Ok TestCli.Returned,
         World (files w)
           (trace w ++ [Log (LogReconnecting delay); Sleep delay; Reconnect;
                        Log LogReconnected])%list)
    | Some e =>
        if isinstance_exn e Exception then
          TestCli.reconnect_loop fuel cfg client (count + 1)
            (Z.min (delay * TestCli.RECONNECT_RATE cfg)
                   (TestCli.MAX_RECONNECT_DELAY cfg))
            (World (files w)
               (trace w ++ [Log (LogReconnecting delay); Sleep delay; Reconnect;
                            Log (LogReconnectFailed e)])%list)
        else
          (Raise e,
           World (files w)
             (trace w ++ [Log (LogReconnecting delay); Sleep delay;
                          Reconnect])%list)
    end
  end.
Proof.
  intros Hc. cbn [TestCli.reconnect_loop].
  apply Z.ltb_lt in Hc. rewrite Hc.
  unfold bind at 1. unfold logging, emit at 1.
  unfold bind at 1. unfold sleep.
  destruct (sleep_refusal delay) as [refusal|]; [reflexivity|].
  unfold emit at 1.
  unfold bind at 1. unfold try_except at 1.
  unfold bind at 1. unfold reconnect. cbn [trace files].
  rewrite !reconnects_app. cbn [reconnects List.filter length].
  rewrite !Nat.add_0_r.
  destruct (reconnect_result client (reconnects (trace w))) as [e|].
  - unfold bind at 1. unfold emit at 1. unfold raise at 1.
    cbn [trace files handle existsb]. rewrite orb_false_r.
    destruct (isinstance_exn e Exception).
    + unfold bind at 1. unfold logging, emit at 1. unfold ret at 1.
      cbn [trace files]. rewrite <- !app_assoc. reflexivity.
    + unfold raise. rewrite <- !app_assoc. reflexivity.
  - unfold emit at 1. unfold bind at 1. unfold logging, emit at 1.
    unfold ret at 1. cbn [trace files]. rewrite <- !app_assoc. reflexivity.
Qed.

Lemma loop_step_failed fuel count delay w e :
  count < TestCli.MAX_RECONNECT_COUNT cfg -> 0 <= delay < 9223372037 ->
  reconnect_result client (reconnects (trace w)) = Some e ->
  isinstance_exn e Exception = true ->
  TestCli.reconnect_loop (S fuel) cfg client count delay w =
  TestCli.reconnect_loop fuel cfg client (count + 1)
    (Z.min (delay * TestCli.RECONNECT_RATE cfg) (TestCli.MAX_RECONNECT_DELAY cfg))
    (World (files w)
       (trace w ++ [Log (LogReconnecting delay); Sleep delay; Reconnect;
                    Log (LogReconnectFailed e)])%list).
Proof.
  intros Hc Hd Hr He. rewrite loop_turn by done.
  by rewrite sleep_accepted, Hr, He.
Qed.

Lemma loop_step_reconnected fuel count delay w :
  count < TestCli.MAX_RECONNECT_COUNT cfg -> 0 <= delay < 9223372037 ->
  reconnect_result client (reconnects (trace w)) = None ->
  TestCli.reconnect_loop (S fuel) cfg client count delay w =
  (Ok TestCli.Returned,
   World (files w)
     (trace w ++ [Log (LogReconnecting delay); Sleep delay; Reconnect;
                  Log LogReconnected])%list).
Proof.
  intros Hc Hd Hr. rewrite loop_turn by done.
  by rewrite sleep_accepted, Hr.
Qed.

(** The bound [on_disconnect] puts on the unfoldings is never what ends the
    loop: with as many unfoldings as attempts are left, the loop ends by
    its [return], by its condition, or by an exception. *)
Lemma reconnect_loop_finishes fuel :
  forall count delay w,
    (Z.to_nat (TestCli.MAX_RECONNECT_COUNT cfg - count) <= fuel)%nat ->
    fst (TestCli.reconnect_loop fuel cfg client count delay w)
    <> Ok TestCli.Unfinished.
Proof.
  induction fuel as [|fuel IH]; intros count delay w Hfuel.
  - rewrite loop_exhausted by lia. discriminate.
  - destruct (Z.lt_ge_cases count (TestCli.MAX_RECONNECT_COUNT cfg)) as [Hc|Hc].
    2: { rewrite loop_exhausted by lia. discriminate. }
    rewrite loop_turn by done.
    destruct (sleep_refusal delay); [discriminate|].
    destruct (reconnect_result client (reconnects (trace w))) as [e|];
      [|discriminate].
    destruct (isinstance_exn e Exception); [|discriminate].
    apply IH. lia.
Qed.

End Loop.

(** The loop, run from any count and delay: when the next [n] attempts raise
    errors and, the limit not being reached, the one after returns, the loop
    makes these attempts with the delays of the schedule and ends by the
    [return] -- or, the limit reached, by its condition.  The bound on
    unfoldings [on_disconnect] gives is enough. *)
Lemma reconnect_loop_run (cfg : TestCli.Config) (client : Client) :
  0 <= TestCli.RECONNECT_RATE cfg ->
  0 <= TestCli.MAX_RECONNECT_DELAY cfg < 9223372037 ->
  forall (n fuel : nat) count delay w,
    0 <= delay < 9223372037 ->
    count + Z.of_nat n <= TestCli.MAX_RECONNECT_COUNT cfg ->
    (Z.to_nat (TestCli.MAX_RECONNECT_COUNT cfg - count) <= fuel)%nat ->
    (forall i, (i < n)%nat -> raises_error client (reconnects (trace w) + i)) ->
    (count + Z.of_nat n < TestCli.MAX_RECONNECT_COUNT cfg ->
     reconnect_result client (reconnects (trace w) + n) = None) ->
    let back := count + Z.of_nat n <? TestCli.MAX_RECONNECT_COUNT cfg in
    exists evs,
      TestCli.reconnect_loop fuel cfg client count delay w =
        (Ok (if back then TestCli.Returned
             else TestCli.Exhausted (count + Z.of_nat n)),
         World (files w) (trace w ++ evs)%list) /\
      sleeps evs =
        backoff_delays (TestCli.RECONNECT_RATE cfg) (TestCli.MAX_RECONNECT_DELAY cfg)
          (if back then S n else n) delay /\
      reconnects evs = (if back then S n else n) /\
      (count < TestCli.MAX_RECONNECT_COUNT cfg ->
       exists evs', evs = Log (LogReconnecting delay) :: Sleep delay
                            :: Reconnect :: evs').
Proof.
  intros Hrate Hceil n.
  induction n as [|n IH]; intros fuel count delay w Hd Hn Hfuel Hfail Hback back.
  - subst back. rewrite Z.add_0_r in *. rewrite Nat.add_0_r in Hback.
    destruct (count <? TestCli.MAX_RECONNECT_COUNT cfg) eqn:Hlt.
    + apply Z.ltb_lt in Hlt. destruct fuel as [|fuel]; [lia|].
      eexists. split; [apply loop_step_reconnected; auto|].
      repeat split; eauto.
    + apply Z.ltb_ge in Hlt. exists []. rewrite app_nil_r.
      split; [|repeat split; lia].
      rewrite loop_exhausted by done. by destruct w.
  - assert (count < TestCli.MAX_RECONNECT_COUNT cfg) as Hlt by lia.
    destruct fuel as [|fuel]; [lia|].
    destruct (Hfail 0%nat ltac:(lia)) as (e & Hr & He).
    rewrite Nat.add_0_r in Hr.
    rewrite (loop_step_failed cfg client fuel count delay w e) by done.
    set (w1 := World _ _).
    assert (reconnects (trace w1) = S (reconnects (trace w))) as Hk.
    { subst w1. cbn [trace]. rewrite reconnects_app. cbn. lia. }
    destruct (IH fuel (count + 1)
                (Z.min (delay * TestCli.RECONNECT_RATE cfg)
                       (TestCli.MAX_RECONNECT_DELAY cfg)) w1)
      as (evs & Hrun & Hsleeps & Hcount & _).
    + assert (0 <= delay * TestCli.RECONNECT_RATE cfg) by nia. lia.
    + lia.
    + lia.
    + intros i Hi. rewrite Hk.
      replace (S (reconnects (trace w)) + i)%nat
        with (reconnects (trace w) + S i)%nat by lia.
      apply Hfail. lia.
    + intros Hb. rewrite Hk.
      replace (S (reconnects (trace w)) + n)%nat
        with (reconnects (trace w) + S n)%nat by lia.
      apply Hback. lia.
    + subst back.
      replace (count + 1 + Z.of_nat n) with (count + Z.of_nat (S n)) in * by lia.
      exists ([Log (LogReconnecting delay); Sleep delay; Reconnect;
               Log (LogReconnectFailed e)] ++ evs)%list.
      split; [|split; [|split]].
      4: { intros _. cbn [app]. eauto. }
      * rewrite Hrun. subst w1. cbn [files trace].
        rewrite <- app_assoc. reflexivity.
      * rewrite sleeps_app, Hsleeps. cbn [sleeps flat_map app].
        by destruct (count + Z.of_nat (S n) <? TestCli.MAX_RECONNECT_COUNT cfg).
      * rewrite reconnects_app, Hcount. cbn.
        by destruct (count + Z.of_nat (S n) <? TestCli.MAX_RECONNECT_COUNT cfg).
Qed.

Lemma default_schedule (m : nat) :
  (m <= 12)%nat -> backoff_delays 2 60 m 1 = firstn m default_delays.
Proof.
  intros Hm. do 13 (destruct m as [|m]; [reflexivity|]). lia.
Qed.

(** [on_disconnect] under the default settings, for every course the
    attempts can take: [n] failures, then a success unless [n] is 12. *)
Lemma on_disconnect_run self client rc w (n : nat) :
  default_backoff (TestCli.config self) ->
  (n <= 12)%nat ->
  (forall i, (i < n)%nat -> raises_error client (reconnects (trace w) + i)) ->
  ((n < 12)%nat -> reconnect_result client (reconnects (trace w) + n) = None) ->
  let back := (n <? 12)%nat in
  exists evs,
    TestCli.on_disconnect self client rc w =
      (Ok (if back then self else exit_requested self),
       World (files w)
         (trace w ++ Log (LogDisconnected rc) :: Log (LogReconnecting 1)
            :: Sleep 1 :: Reconnect :: evs
            ++ (if back then [] else [Log (LogGivingUp 12)]))%list) /\
    sleeps (Log (LogReconnecting 1) :: Sleep 1 :: Reconnect :: evs) =
      firstn (if back then S n else n) default_delays /\
    reconnects (Log (LogReconnecting 1) :: Sleep 1 :: Reconnect :: evs) =
      (if back then S n else n).
Proof.
  intros (Hfirst & Hrate & Hlimit & Hceil) Hn Hfail Hback back.
  unfold TestCli.on_disconnect. unfold bind at 1. unfold logging, emit at 1.
  set (w0 := World _ _).
  assert (reconnects (trace w0) = reconnects (trace w)) as Hk.
  { subst w0. cbn [trace]. rewrite reconnects_app. cbn. lia. }
  destruct (reconnect_loop_run (TestCli.config self) client
              ltac:(lia) ltac:(lia) n
              (Z.to_nat (TestCli.MAX_RECONNECT_COUNT (TestCli.config self)))
              0 (TestCli.FIRST_RECONNECT_DELAY (TestCli.config self)) w0)
    as (evs & Hrun & Hsleeps & Hcount & Hhead).
  - lia.
  - lia.
  - lia.
  - intros i Hi. rewrite Hk. by apply Hfail.
  - intros Hlt. rewrite Hk. apply Hback. lia.
  - destruct Hhead as [evs' ->]; [lia|].
    rewrite Hfirst, Hrate, Hlimit, Hceil in *.
    assert ((0 + Z.of_nat n <? 12) = (n <? 12)%nat) as Hb.
    { destruct (Nat.ltb_spec n 12).
      - apply Z.ltb_lt. lia.
      - apply Z.ltb_ge. lia. }
    subst back. rewrite Hb in *.
    exists evs'. unfold bind. rewrite Hrun.
    split; [|split].
    + subst w0. cbn [files trace]. destruct (Nat.ltb_spec n 12).
      * unfold ret. rewrite app_nil_r. rewrite <- app_assoc. reflexivity.
      * unfold logging, emit, ret. cbn [files trace].
        replace (0 + Z.of_nat n) with 12 by lia.
        rewrite <- !app_assoc. reflexivity.
    + rewrite Hsleeps. apply default_schedule.
      destruct (Nat.ltb_spec n 12); lia.
    + exact Hcount.
Qed.

Lemma on_disconnect_config self client rc w self' w' :
  TestCli.on_disconnect self client rc w = (Ok self', w') ->
  TestCli.config self' = TestCli.config self.
Proof.
  unfold TestCli.on_disconnect, bind, logging, emit, ret.
  destruct (TestCli.reconnect_loop _ _ _ _ _ _) as [[[]|] ?];
    intros [= <- <-]; reflexivity.
Qed.

Lemma handle_disconnects_config client rcs :
  forall self w self' w',
    TestCli.handle_disconnects self client rcs w = (Ok self', w') ->
    TestCli.config self' = TestCli.config self.
Proof.
  induction rcs as [|rc rcs IH]; intros self w self' w'; cbn.
  - unfold ret. by intros [= <- <-].
  - unfold bind.
    destruct (TestCli.on_disconnect self client rc w) as [[self1|e] w1] eqn:H1;
      [|discriminate].
    intros H2. apply IH in H2. apply on_disconnect_config in H1. congruence.
Qed.

(** X1.  [Config.__init__] fixes the reconnection settings: every
    configuration it returns has initial delay 1, rate 2, at most 12
    attempts and ceiling 60, and the topics it was given. *)
Lemma Config__init__default env creds_path topics w cfg w' :
  TestCli.Config__init__ env creds_path topics w = (Ok cfg, w') ->
  default_backoff cfg /\ TestCli.TOPICS cfg = topics.
Proof.
  unfold TestCli.Config__init__, bind, ret.
  destruct (TestCli.yaml_creds env creds_path w) as [[creds|?] w1]; [|discriminate].
  destruct (TestCli.Auth__init__ env (fst creds) (snd creds) w1) as [[a|?] w2];
    [|discriminate].
  intros [= <- <-]. repeat split.
Qed.

Lemma Config__init__default_witness :
  exists cfg w',
    TestCli.Config__init__ sample_env "creds.yaml" ["plaintext/quotes/stock/tick/+"]
      fresh_world = (Ok cfg, w') /\
    default_backoff cfg /\
    TestCli.TOPICS cfg = ["plaintext/quotes/stock/tick/+"].
Proof.
  destruct (TestCli.Config__init__ sample_env "creds.yaml"
              ["plaintext/quotes/stock/tick/+"] fresh_world)
    as [[cfg|e] w'] eqn:Hrun.
  - exists cfg, w'. split; [reflexivity|].
    exact (Config__init__default _ _ _ _ _ _ Hrun).
  - vm_compute in Hrun. discriminate.
Defined.

(** ** Claims on the connection callbacks *)

(** C1.  Under the default settings (initial delay 1, rate 2, ceiling 60, at
    most 12 attempts), when every reconnect attempt raises an error
    [on_disconnect] sleeps 1, 2, 4, 8, 16, 32, 60, 60, 60, 60, 60, 60 in turn,
    calls [reconnect] twelve times, then logs that it gives up after 12
    attempts and returns normally with [FLAG_EXIT] set: nothing is raised,
    so the process is not exited from here.  The flag is set only then:
    when fewer than twelve attempts fail and the next one succeeds, the
    handler returns after the delays made so far with the object, flag
    included, as it was. *)
Theorem on_disconnect_default_backoff self rc w :
  default_backoff (TestCli.config self) ->
  (forall client,
      (forall k, raises_error client k) ->
      exists evs,
        TestCli.on_disconnect self client rc w =
          (Ok (exit_requested self),
           World (files w)
             (trace w ++ Log (LogDisconnected rc) :: evs
                ++ [Log (LogGivingUp 12)])%list) /\
        sleeps evs = [1; 2; 4; 8; 16; 32; 60; 60; 60; 60; 60; 60] /\
        reconnects evs = 12%nat) /\
  (forall client (n : nat),
      (n < 12)%nat ->
      (forall i, (i < n)%nat -> raises_error client (reconnects (trace w) + i)) ->
      reconnect_result client (reconnects (trace w) + n) = None ->
      exists evs,
        TestCli.on_disconnect self client rc w =
          (Ok self,
           World (files w) (trace w ++ Log (LogDisconnected rc) :: evs)%list) /\
        sleeps evs = firstn (S n) default_delays /\
        reconnects evs = S n).
Proof.
  intros Hdefault. split.
  - intros client Hfail.
    destruct (on_disconnect_run self client rc w 12 Hdefault)
      as (evs & Hrun & Hsleeps & Hcount); [lia | auto | lia |].
    cbn [Nat.ltb Nat.leb] in *.
    exists (Log (LogReconnecting 1) :: Sleep 1 :: Reconnect :: evs).
    split; [exact Hrun|]. split; [exact Hsleeps | exact Hcount].
  - intros client n Hn Hfail Hback.
    destruct (on_disconnect_run self client rc w n Hdefault)
      as (evs & Hrun & Hsleeps & Hcount); [lia | auto | auto |].
    cbn zeta in *. destruct (Nat.ltb_spec n 12); [|lia].
    rewrite app_nil_r in Hrun.
    exists (Log (LogReconnecting 1) :: Sleep 1 :: Reconnect :: evs).
    split; [exact Hrun|]. split; [exact Hsleeps | exact Hcount].
Qed.

Lemma on_disconnect_default_backoff_witness :
  default_backoff (TestCli.config sample_self) /\
  (forall k, raises_error unreachable_broker k) /\
  exists w',
    TestCli.on_disconnect sample_self unreachable_broker 1 fresh_world =
      (Ok (exit_requested sample_self), w') /\
    sleeps (trace w') = [1; 2; 4; 8; 16; 32; 60; 60; 60; 60; 60; 60] /\
    TestCli.FLAG_EXIT (exit_requested sample_self) = true.
Proof.
  assert (default_backoff (TestCli.config sample_self)) as Hdefault
    by (repeat split).
  assert (forall k, raises_error unreachable_broker k) as Hfail
    by (intros k; exists refused; split; reflexivity).
  split; [exact Hdefault|]. split; [exact Hfail|].
  destruct (on_disconnect_default_backoff sample_self 1 fresh_world Hdefault)
    as [Hall _].
  destruct (Hall unreachable_broker Hfail) as (evs & Hrun & Hsleeps & _).
  eexists. split; [exact Hrun|]. split; [|reflexivity].
  cbn [trace app]. change (Log (LogDisconnected 1) :: evs ++ [Log (LogGivingUp 12)])%list
    with ([Log (LogDisconnected 1)] ++ evs ++ [Log (LogGivingUp 12)])%list.
  rewrite !sleeps_app, Hsleeps. reflexivity.
Defined.

(** C6.  Whatever disconnects were handled before on the same object (each
    call having returned), the next call of [on_disconnect] runs its loop
    from the start of the schedule: its first delay is the initial one, the
    delays follow [1, 2, 4, ...] from there, and it gives up -- reporting 12
    attempts -- only when twelve attempts of this call fail.  Nothing of
    the earlier calls' counters or delays enters. *)
Theorem on_disconnect_starts_afresh self client rcs w self1 w1 rc (n : nat) :
  default_backoff (TestCli.config self) ->
  TestCli.handle_disconnects self client rcs w = (Ok self1, w1) ->
  (n <= 12)%nat ->
  (forall i, (i < n)%nat -> raises_error client (reconnects (trace w1) + i)) ->
  ((n < 12)%nat -> reconnect_result client (reconnects (trace w1) + n) = None) ->
  let back := (n <? 12)%nat in
  exists evs,
    TestCli.on_disconnect self1 client rc w1 =
      (Ok (if back then self1 else exit_requested self1),
       World (files w1)
         (trace w1 ++ Log (LogDisconnected rc) :: Log (LogReconnecting 1)
            :: Sleep 1 :: Reconnect :: evs
            ++ (if back then [] else [Log (LogGivingUp 12)]))%list) /\
    sleeps (Log (LogReconnecting 1) :: Sleep 1 :: Reconnect :: evs) =
      firstn (if back then S n else n) default_delays.
Proof.
  intros Hdefault Hbefore Hn Hfail Hback back.
  assert (default_backoff (TestCli.config self1)) as Hdefault1.
  { unfold default_backoff.
    by rewrite (handle_disconnects_config client rcs self w self1 w1 Hbefore). }
  destruct (on_disconnect_run self1 client rc w1 n Hdefault1 Hn Hfail Hback)
    as (evs & Hrun & Hsleeps & _).
  exists evs. split; [exact Hrun | exact Hsleeps].
Qed.

Lemma on_disconnect_starts_afresh_witness :
  exists w1,
    TestCli.handle_disconnects sample_self broker_back_at_fourth [1] fresh_world =
      (Ok sample_self, w1) /\
    sleeps (trace w1) = [1; 2; 4; 8] /\
    exists w2,
      TestCli.on_disconnect sample_self broker_back_at_fourth 1 w1 =
        (Ok sample_self, w2) /\
      sleeps (trace w2) = [1; 2; 4; 8; 1].
Proof.
  eexists. split; [vm_compute; reflexivity|]. split; [reflexivity|].
  match goal with
  | |- context [TestCli.on_disconnect _ _ _ ?w] => set (w1 := w)
  end.
  assert (default_backoff (TestCli.config sample_self)) as Hdefault
    by (repeat split).
  destruct (on_disconnect_starts_afresh sample_self broker_back_at_fourth [1]
              fresh_world sample_self w1 1 0 Hdefault)
    as (evs & Hrun & Hsleeps).
  - vm_compute. reflexivity.
  - lia.
  - intros i Hi. lia.
  - intros _. reflexivity.
  - cbn zeta in Hrun, Hsleeps. cbn [Nat.ltb Nat.leb] in Hrun, Hsleeps.
    rewrite app_nil_r in Hrun.
    eexists. split; [exact Hrun|]. cbn [trace].
    change (Log (LogDisconnected 1) :: Log (LogReconnecting 1) :: Sleep 1
              :: Reconnect :: evs)
      with ([Log (LogDisconnected 1)] ++
            (Log (LogReconnecting 1) :: Sleep 1 :: Reconnect :: evs))%list.
    rewrite !sleeps_app, Hsleeps. reflexivity.
Defined.

(** C5, as stated, fails for [test_cli.py]: with the success code 0 but a
    client that reports it is not connected, [on_connect] logs a failure
    and issues no subscribe call. *)
Lemma on_connect_success_code_without_subscribe :
  TestCli.on_connect sample_self dropped_client 0 fresh_world =
    (Ok tt, World ∅ [Log (LogConnectFailed 0)]) /\
  subscriptions [Log (LogConnectFailed 0)] = [].
Proof. split; reflexivity. Qed.

(** C5, amended.  In [test_cli.py], [on_connect] issues one subscribe call
    that covers all configured topics, each at QoS 2, when the
    acknowledgment code is 0 and the client reports it is connected;
    otherwise -- a non-zero code, or a client not connected -- it logs the
    failure with the code and issues no subscribe call.  In [stream.py] the
    code alone decides. *)
Theorem on_connect_subscribes self cfg client rc w :
  TestCli.on_connect self client rc w =
    (Ok tt,
     World (files w)
       (trace w ++
        (if (rc =? 0) && is_connected client
         then [Log LogConnected;
               Subscribe (map (fun topic => (topic, 2))
                            (TestCli.TOPICS (TestCli.config self)))]
         else [Log (LogConnectFailed rc)]))%list) /\
  Stream.on_connect cfg client rc w =
    (Ok tt,
     World (files w)
       (trace w ++
        (if rc =? 0
         then [Log LogConnected;
               Subscribe (map (fun topic => (topic, 2)) (Stream.TOPICS cfg))]
         else [Log (LogConnectFailed rc)]))%list).
Proof.
  unfold TestCli.on_connect, Stream.on_connect, bind, logging, emit, qos2.
  split.
  - destruct ((rc =? 0) && is_connected client); cbn [files trace];
      rewrite <- ?app_assoc; reflexivity.
  - destruct (rc =? 0); cbn [files trace]; rewrite <- ?app_assoc; reflexivity.
Qed.

(** ** Claims on start-up *)

(** C8: the code at the failing inputs.  In [stream.py], [dnse_auth]
    answers a 401 by returning [None]; the module goes on to ask for the
    account with that [None] as its token and stops only on the [TypeError]
    of subscripting the [None] that [account_info] returns in turn.  In
    [test_cli.py], [_get_token] returns [None] on a 204, [raise_for_status]
    raising only from 400 on. *)
Theorem auth_failure_returns_none :
  Stream.dnse_auth wrong_password_env (PyStr "0900000000") (PyStr "wrong")
    fresh_world =
    (Ok PyNone, World ∅ [Request "POST" auth_url]) /\
  Stream.load_module stream_wrong_password_env fresh_world =
    (Raise (Exn TypeError "'NoneType' object is not subscriptable"),
     World ∅ [OpenRead Stream.creds_path; Request "POST" auth_url;
              Request "GET" me_url]) /\
  TestCli._get_token no_content_env (PyStr "0900000000") (PyStr "secret")
    fresh_world =
    (Ok PyNone, World ∅ [Request "POST" auth_url]).
Proof. repeat split. Qed.

(** C9: the code at the failing input.  [ast.literal_eval] raises
    [TypeError] on the string; the [except (ValueError, SyntaxError)] clause
    lets it through, and [run] ends with that [TypeError], not a
    [ValueError] (before any file is read or request sent). *)
Theorem run_unhashable_topics_raises_type_error :
  TestCli.run sample_env "creds.yaml" unhashable_topics fresh_world =
    (Raise (Exn TypeError "unhashable type: 'list'"), fresh_world).
Proof. reflexivity. Qed.

(** C10, as stated, fails: on the path of a directory [open] raises
    [IsADirectoryError], which none of the three [except] clauses names;
    [yaml_creds] ends with it, and it is neither a [FileNotFoundError] nor
    a [ValueError] nor a [KeyError]. *)
Lemma yaml_creds_directory_raises :
  TestCli.yaml_creds directory_env "config" fresh_world =
    (Raise is_a_directory, World ∅ [OpenRead "config"]) /\
  isinstance_exn is_a_directory FileNotFoundError = false /\
  isinstance_exn is_a_directory ValueError = false /\
  isinstance_exn is_a_directory KeyError = false.
Proof. repeat split. Qed.

(** C10, amended.  [yaml_creds] opens the file and then, according to what
    is there: no such file, it raises [FileNotFoundError]; a document the
    YAML parser refuses, [ValueError]; a document whose top-level value is
    not a dictionary, [ValueError]; a dictionary without ['usr'] or without
    ['pwd'], [KeyError]; a dictionary with both, it returns the pair of
    their values.  Any other exception of [open], of the read or of the
    loader goes through the three [except] clauses like any exception: it
    is rewrapped when it is a [FileNotFoundError], a [YAMLError] or a
    [KeyError], and leaves [yaml_creds] unchanged otherwise.  These cases
    are all there are, so a pair is returned only when both keys are
    present. *)
Theorem yaml_creds_outcomes env path w :
  exists r,
    TestCli.yaml_creds env path w =
      (r, World (files w) (trace w ++ [OpenRead path])%list) /\
    match safe_load env path with
    | None =>
        r = Raise (Exn FileNotFoundError
                     ("The file " ++ path ++ " does not exist."))
    | Some (Unreadable e) =>
        r = Raise
              (if isinstance_exn e FileNotFoundError
               then Exn FileNotFoundError
                      ("The file " ++ path ++ " does not exist.")
               else if isinstance_exn e YAMLError
               then Exn ValueError ("Error parsing the YAML file: " ++ str_exn e)
               else if isinstance_exn e KeyError
               then Exn KeyError
                      ("Missing required key in the credentials file: "
                       ++ str_exn e)
               else e)
    | Some (Unparseable problem) =>
        r = Raise (Exn ValueError ("Error parsing the YAML file: " ++ problem))
    | Some (Loaded (PyDict d)) =>
        match d !! "usr", d !! "pwd" with
        | Some usr, Some pwd => r = Ok (usr, pwd)
        | None, _ =>
            r = Raise (Exn KeyError
                         "Missing required key in the credentials file: 'usr'")
        | Some _, None =>
            r = Raise (Exn KeyError
                         "Missing required key in the credentials file: 'pwd'")
        end
    | Some (Loaded _) =>
        r = Raise (Exn ValueError
              "The credentials file format is incorrect. Expected a dictionary.")
    end.
Proof.
  unfold TestCli.yaml_creds, try_except, bind, emit, lift, raise, ret.
  cbn [files trace].
  destruct (safe_load env path) as [[e|problem|value]|].
  - cbn [yaml_result handle existsb]. rewrite !orb_false_r.
    destruct (isinstance_exn e FileNotFoundError);
      [eexists; split; reflexivity|].
    destruct (isinstance_exn e YAMLError); [eexists; split; reflexivity|].
    destruct (isinstance_exn e KeyError); eexists; split; reflexivity.
  - eexists. split; reflexivity.
  - destruct value; try (eexists; split; reflexivity).
    cbn [yaml_result is_dict negb getitem].
    destruct (d !! "usr"); [destruct (d !! "pwd")|];
      eexists; split; reflexivity.
  - eexists. split; reflexivity.
Qed.

(** ** Further properties of start-up *)

(** X2.  The loop of [on_disconnect] always comes to an end: it is never
    cut short by the bound on its unfoldings, whatever the settings, the
    broker and the world. *)
Theorem on_disconnect_loop_finishes self client w :
  fst (TestCli.reconnect_loop
         (Z.to_nat (TestCli.MAX_RECONNECT_COUNT (TestCli.config self)))
         (TestCli.config self) client 0
         (TestCli.FIRST_RECONNECT_DELAY (TestCli.config self)) w)
  <> Ok TestCli.Unfinished.
Proof. apply reconnect_loop_finishes. lia. Qed.

(** X3.  In [test_cli.py] a status of 400 to 599 from the authentication
    endpoint makes [_get_token], and so the construction of [Auth], raise
    [HTTPError] after that one request: nothing is retried and no
    credential is returned. *)
Theorem _get_token_raises_on_error_status env username password response w :
  post_auth env username password = Ok response ->
  400 <= status_code response < 600 ->
  TestCli._get_token env username password w =
    (Raise http_error, World (files w) (trace w ++ [Request "POST" auth_url])%list)
  /\
  TestCli.Auth__init__ env username password w =
    (Raise http_error, World (files w) (trace w ++ [Request "POST" auth_url])%list).
Proof.
  intros Hpost [Hlo Hhi].
  assert (TestCli._get_token env username password w =
          (Raise http_error,
           World (files w) (trace w ++ [Request "POST" auth_url])%list)) as Htoken.
  { unfold TestCli._get_token, bind, emit, lift, raise_for_status.
    rewrite Hpost.
    destruct (status_code response =? 200) eqn:H200;
      [apply Z.eqb_eq in H200; lia|].
    apply Z.leb_le in Hlo. apply Z.ltb_lt in Hhi. rewrite Hlo, Hhi.
    reflexivity. }
  split; [exact Htoken|].
  unfold TestCli.Auth__init__, bind. by rewrite Htoken.
Qed.

Lemma _get_token_raises_on_error_status_witness :
  TestCli.Auth__init__ wrong_password_env (PyStr "0900000000") (PyStr "wrong")
    fresh_world =
  (Raise http_error, World ∅ [Request "POST" auth_url]).
Proof.
  apply (_get_token_raises_on_error_status wrong_password_env
           (PyStr "0900000000") (PyStr "wrong") unauthorized fresh_world).
  - reflexivity.
  - cbn. lia.
Defined.

(** X4.  A topics string that [ast.literal_eval] refuses with [ValueError] or
    [SyntaxError], or evaluates to something that is not a list, makes [run]
    raise [ValueError] with the world untouched: no file is read, no request
    sent, no connection tried. *)
Theorem run_rejects_unparsed_topics env creds_path text outcome w :
  match outcome with
  | Raise e => isinstance_exn e ValueError || isinstance_exn e SyntaxError = true
  | Ok v => is_list v = false
  end ->
  exists why,
    TestCli.run env creds_path (TestCli.TopicsStr text outcome) w =
      (Raise (Exn ValueError ("Failed to parse topics: " ++ why)), w).
Proof.
  intros Hout.
  unfold TestCli.run, TestCli.parse_topics, try_except, bind, lift, raise.
  destruct outcome as [v|e].
  - destruct v; try discriminate; eexists; reflexivity.
  - cbn [handle existsb]. rewrite orb_false_r, Hout. eexists. reflexivity.
Qed.

Lemma run_rejects_unparsed_topics_witness :
  exists why,
    TestCli.run sample_env "creds.yaml"
      (TestCli.TopicsStr "plaintext/quotes/stock/tick/+"
         (Raise (Exn SyntaxError "invalid syntax"))) fresh_world =
      (Raise (Exn ValueError ("Failed to parse topics: " ++ why)), fresh_world).
Proof.
  apply (run_rejects_unparsed_topics sample_env "creds.yaml"
           "plaintext/quotes/stock/tick/+"
           (Raise (Exn SyntaxError "invalid syntax")) fresh_world).
  reflexivity.
Defined.

(** X5.  A topics collection -- given as such, or as a string that evaluates
    to a list -- with an element that is not a string makes [run] raise
    [ValueError("All topics must be strings.")] with the world untouched. *)
Theorem run_rejects_non_string_topic env creds_path topics items w :
  topics = TestCli.TopicsCollection items \/
  (exists text, topics = TestCli.TopicsStr text (Ok (PyList items))) ->
  forallb is_str items = false ->
  TestCli.run env creds_path topics w =
    (Raise (Exn ValueError "All topics must be strings."), w).
Proof.
  intros [-> | [text ->]] Hitems;
    unfold TestCli.run, TestCli.parse_topics, try_except, bind, lift, ret, raise;
    cbn [TestCli.items_of]; by rewrite Hitems.
Qed.

Lemma run_rejects_non_string_topic_witness :
  TestCli.run sample_env "creds.yaml" (TestCli.TopicsCollection mixed_topics)
    fresh_world =
  (Raise (Exn ValueError "All topics must be strings."), fresh_world).
Proof.
  apply (run_rejects_non_string_topic sample_env "creds.yaml" _ mixed_topics).
  - by left.
  - reflexivity.
Defined.

(** * Further properties of the code *)

(** ** The sink *)





(** ** The message callback, on every message *)



Lemma on_message_other_payload fs float_literal t v w :
  (forall d, v <> PyDict d) ->
  on_message fs float_literal (Message t (Ok v)) w = (Ok tt, w) \/
  exists e, on_message fs float_literal (Message t (Ok v)) w = (Raise e, w) /\
            exn_cls e = TypeError.
Proof.
  intros Hnd.
  unfold on_message, bind, lift, ret, try_except. cbn [decoded].
  destruct v as [| | | | s | items | items | d];
    try (right; eexists; split; reflexivity).
  - cbn. destruct (str_contains "matchPrice" s); [|by left].
    destruct (str_contains "matchQtty" s); [|by left].
    right; eexists; split; reflexivity.
  - cbn -[existsb]. destruct (existsb _ items); [|by left].
    destruct (existsb _ items); [|by left].
    right; eexists; split; reflexivity.
  - cbn -[existsb]. destruct (existsb _ items); [|by left].
    destruct (existsb _ items); [|by left].
    right; eexists; split; reflexivity.
  - exfalso. by apply (Hnd d).
Qed.









(** X12.  A price or a quantity that is a string [float] does not accept
    drops the tick: when the price is such a string, or the price coerces
    and the quantity is such a string, [on_message] returns normally, logs
    one invalid-tick error and leaves the sink files exactly as they were --
    the file is not even created. *)
Theorem on_message_drops_non_numeric fs float_literal topic
    (d : gmap string pyval) price qtty s w :
  d !! "matchPrice" = Some price -> d !! "matchQtty" = Some qtty ->
  price = PyStr s \/
  ((exists price', float float_literal price = Ok price') /\ qtty = PyStr s) ->
  float_literal s = false ->
  on_message fs float_literal (Message topic (Ok (PyDict d))) w =
    (Ok tt, World (files w) (trace w ++ [Log LogInvalidTick])%list).
Proof.
  intros Hp Hq Hcase Hs. rewrite on_message_dict, Hp, Hq.
  destruct Hcase as [-> | [[price' ->] ->]]; cbn [float]; rewrite Hs; reflexivity.
Qed.

Lemma on_message_drops_non_numeric_witness :
  on_message plain_disk refuses_na
    (Message tick_topic (Ok (PyDict na_price_tick))) fresh_world =
  (Ok tt, World ∅ [Log LogInvalidTick]).
Proof.
  apply (on_message_drops_non_numeric plain_disk refuses_na tick_topic
           na_price_tick (PyStr "N/A") (PyInt 100) "N/A" fresh_world).
  - reflexivity.
  - reflexivity.
  - by left.
  - reflexivity.
Defined.



(** X14.  A payload that is not a JSON object -- an array, a string, a
    number, [true], [false], [null], or bytes that do not decode -- never
    changes the sink or the log: [on_message] returns without doing
    anything, or raises the decoding error or a [TypeError]. *)
Theorem on_message_ignores_non_objects fs float_literal msg w :
  (forall d, decoded msg <> Ok (PyDict d)) ->
  snd (on_message fs float_literal msg w) = w /\
  (fst (on_message fs float_literal msg w) = Ok tt \/
   exists e, fst (on_message fs float_literal msg w) = Raise e /\
             (decoded msg = Raise e \/ exn_cls e = TypeError)).
Proof.
  intros Hnd. destruct msg as [t [v|e]].
  - destruct (on_message_other_payload fs float_literal t v w)
      as [->|[e [-> He]]].
    + intros d ->. by apply (Hnd d).
    + split; [done | by left].
    + split; [done|]. right. eauto.
  - split; [done|]. right. exists e. split; [done | by left].
Qed.

Lemma on_message_ignores_non_objects_witness :
  snd (on_message plain_disk refuses_na array_payload started_world) =
    started_world /\
  exists e, fst (on_message plain_disk refuses_na array_payload started_world) =
              Raise e.
Proof.
  destruct (on_message_ignores_non_objects plain_disk refuses_na array_payload
              started_world) as [Hsame Hresult].
  - intros d. discriminate.
  - split; [exact Hsame|]. eexists. reflexivity.
Defined.

(** ** The reconnection handler, for every setting and every broker *)

Lemma backoff_delays_length rate ceiling n delay :
  length (backoff_delays rate ceiling n delay) = n.
Proof. revert delay. induction n as [|n IH]; intros delay; cbn; [done|]. by rewrite IH. Qed.

Lemma backoff_delays_closed rate ceiling :
  1 <= rate -> 0 <= ceiling ->
  forall n first,
    backoff_delays rate ceiling n first =
    map (delay_at first rate ceiling) (seq 0 n).
Proof.
  intros Hrate Hceil. induction n as [|n IH]; intros first; [reflexivity|].
  cbn [backoff_delays seq map delay_at]. f_equal.
  rewrite IH, <- seq_shift, map_map. apply map_ext. intros j.
  destruct j as [|j].
  - cbn [delay_at]. change (Z.of_nat 1) with 1. by rewrite Z.pow_1_r.
  - cbn [delay_at].
    set (P := rate ^ Z.of_nat (S j)).
    assert (1 <= P) as HP.
    { assert (0 < P) by (subst P; apply Z.pow_pos_nonneg; lia). lia. }
    replace (rate ^ Z.of_nat (S (S j))) with (rate * P).
    2: { subst P. rewrite (Nat2Z.inj_succ (S j)), Z.pow_succ_r by lia. done. }
    assert (ceiling <= ceiling * P) as Hgrow by nia.
    assert (Z.min (first * rate) ceiling * P =
            Z.min (first * rate * P) (ceiling * P)) as ->
      by (rewrite Z.mul_min_distr_nonneg_r; lia).
    replace (first * (rate * P)) with (first * rate * P) by lia.
    lia.
Qed.

Lemma total_prefix (l k : list Z) :
  l `prefix_of` k -> Forall (fun d => 0 <= d) k -> total l <= total k.
Proof.
  intros [rest ->] Hpos. unfold total. rewrite foldr_app.
  apply Forall_app in Hpos as [_ Hrest].
  assert (0 <= foldr Z.add 0 rest) as Hr.
  { induction Hrest as [|d rest Hd _ IH]; cbn; lia. }
  revert Hr. generalize (foldr Z.add 0 rest). intros r Hr.
  induction l as [|d l IH]; cbn; lia.
Qed.

Section AnyBroker.

Variable cfg : TestCli.Config.
Variable client : Client.

(** The loop from any count and delay, whatever the broker does: the world
    it leaves differs by the trace only; the delays slept are the first ones
    of the schedule, one before each attempt; there are no more attempts
    than turns are left; and the loop ends by its [return] right after an
    attempt that came back, by its condition only after all the attempts,
    or by an exception that is the refusal of [time.sleep] or one of the
    client's that is no [Exception]. *)
Lemma reconnect_loop_bounded fuel :
  forall count delay w,
  exists evs,
    snd (TestCli.reconnect_loop fuel cfg client count delay w) =
      World (files w) (trace w ++ evs)%list /\
    sleeps evs `prefix_of`
      backoff_delays (TestCli.RECONNECT_RATE cfg) (TestCli.MAX_RECONNECT_DELAY cfg)
        fuel delay /\
    length (sleeps evs) = reconnects evs /\
    (reconnects evs <= Z.to_nat (TestCli.MAX_RECONNECT_COUNT cfg - count))%nat /\
    subscriptions evs = [] /\
    match fst (TestCli.reconnect_loop fuel cfg client count delay w) with
    | Ok TestCli.Returned =>
        exists evs', evs = (evs' ++ [Reconnect; Log LogReconnected])%list
    | Ok (TestCli.Exhausted c) =>
        reconnects evs = Z.to_nat (TestCli.MAX_RECONNECT_COUNT cfg - count) /\
        c = Z.max count (TestCli.MAX_RECONNECT_COUNT cfg)
    | Ok TestCli.Unfinished =>
        (fuel < Z.to_nat (TestCli.MAX_RECONNECT_COUNT cfg - count))%nat
    | Raise e =>
        (exists refused_delay,
            refused_delay ∈
              backoff_delays (TestCli.RECONNECT_RATE cfg)
                (TestCli.MAX_RECONNECT_DELAY cfg) fuel delay /\
            sleep_refusal refused_delay = Some e) \/
        isinstance_exn e Exception = false /\
        (exists k, reconnect_result client k = Some e) /\
        (exists evs', evs = (evs' ++ [Reconnect])%list)
    end.
Proof.
  induction fuel as [|fuel IH]; intros count delay w.
  - exists []. rewrite app_nil_r.
    destruct (Z.lt_ge_cases count (TestCli.MAX_RECONNECT_COUNT cfg)) as [Hc|Hc].
    + cbn. apply Z.ltb_lt in Hc. rewrite Hc. cbn.
      split; [by destruct w|]. split; [apply prefix_nil|].
      split; [done|]. split; [lia|]. split; [done|]. apply Z.ltb_lt in Hc. lia.
    + rewrite loop_exhausted by lia. cbn.
      split; [by destruct w|]. split; [apply prefix_nil|].
      split; [done|]. split; [lia|]. split; [done|]. lia.
  - destruct (Z.lt_ge_cases count (TestCli.MAX_RECONNECT_COUNT cfg)) as [Hc|Hc].
    2: { exists []. rewrite app_nil_r. rewrite loop_exhausted by lia. cbn.
         split; [by destruct w|]. split; [apply prefix_nil|].
         split; [done|]. split; [lia|]. split; [done|]. lia. }
    rewrite loop_turn by done. cbn [backoff_delays].
    destruct (sleep_refusal delay) as [refusal|] eqn:Hsleep.
    { eexists. split; [reflexivity|]. cbn.
      split; [apply prefix_nil|]. split; [done|]. split; [lia|].
      split; [done|]. left. exists delay. split; [apply list_elem_of_here|done]. }
    destruct (reconnect_result client (reconnects (trace w))) as [e|] eqn:Hr.
    2: { eexists. split; [reflexivity|]. cbn.
         split; [apply prefix_cons, prefix_nil|]. split; [done|]. split; [lia|].
         split; [done|].
         by exists [Log (LogReconnecting delay); Sleep delay]. }
    destruct (isinstance_exn e Exception) eqn:He.
    2: { eexists. split; [reflexivity|]. cbn.
         split; [apply prefix_cons, prefix_nil|]. split; [done|]. split; [lia|].
         split; [done|]. right. split; [done|]. split; [eauto|].
         by exists [Log (LogReconnecting delay); Sleep delay]. }
    set (w1 := World _ _).
    destruct (IH (count + 1)
                (Z.min (delay * TestCli.RECONNECT_RATE cfg)
                       (TestCli.MAX_RECONNECT_DELAY cfg)) w1)
      as (evs & Hsnd & Hsleeps & Hpairs & Hcount & Hsubs & Hend).
    set (turn := [Log (LogReconnecting delay); Sleep delay; Reconnect;
                  Log (LogReconnectFailed e)]).
    exists (turn ++ evs)%list.
    split; [|split; [|split; [|split; [|split]]]].
    + rewrite Hsnd. subst w1 turn. cbn [files trace]. by rewrite <- app_assoc.
    + cbn. by apply prefix_cons.
    + rewrite sleeps_app, reconnects_app, length_app, Hpairs. reflexivity.
    + rewrite reconnects_app. cbn. lia.
    + cbn. exact Hsubs.
    + destruct (fst (TestCli.reconnect_loop fuel cfg client (count + 1) _ w1))
        as [[|c|]|e'].
      * destruct Hend as [evs' ->]. exists (turn ++ evs')%list.
        by rewrite <- app_assoc.
      * destruct Hend as [Hn ->]. rewrite reconnects_app. cbn. split; lia.
      * lia.
      * destruct Hend as [(d & Hd & Hrefusal)|(He' & Hk & evs' & ->)].
        { left. exists d. split; [by apply list_elem_of_further|done]. }
        right. split; [done|]. split; [done|].
        exists (turn ++ evs')%list. by rewrite <- app_assoc.
Qed.

End AnyBroker.



(** [on_disconnect], as its loop and what follows it. *)
Lemma on_disconnect_loop self client rc w :
  TestCli.on_disconnect self client rc w =
  match TestCli.reconnect_loop
          (Z.to_nat (TestCli.MAX_RECONNECT_COUNT (TestCli.config self)))
          (TestCli.config self) client 0
          (TestCli.FIRST_RECONNECT_DELAY (TestCli.config self))
          (World (files w) (trace w ++ [Log (LogDisconnected rc)])%list) with
  | (Ok (TestCli.Exhausted c), w1) =>
      (Ok (exit_requested self),
       World (files w1) (trace w1 ++ [Log (LogGivingUp c)])%list)
  | (Ok _, w1) => (Ok self, w1)
  | (Raise e, w1) => (Raise e, w1)
  end.
Proof.
  unfold TestCli.on_disconnect, bind, logging, emit.
  by destruct (TestCli.reconnect_loop _ _ _ _ _ _) as [[[]|] ?].
Qed.

Lemma reconnects_disconnected rc t :
  reconnects (t ++ [Log (LogDisconnected rc)]) = reconnects t.
Proof. rewrite reconnects_app. cbn. lia. Qed.

(** X15.  Whatever the settings, the broker and the way the call ends,
    [on_disconnect] leaves the sink files alone, issues no subscribe call,
    sleeps once before each attempt with the delays of the schedule in
    order, and makes at most [MAX_RECONNECT_COUNT] attempts (none when that
    number is zero or negative). *)
Theorem on_disconnect_bounded self client rc w :
  let cfg := TestCli.config self in
  exists evs,
    snd (TestCli.on_disconnect self client rc w) =
      World (files w) (trace w ++ Log (LogDisconnected rc) :: evs)%list /\
    sleeps evs `prefix_of`
      backoff_delays (TestCli.RECONNECT_RATE cfg) (TestCli.MAX_RECONNECT_DELAY cfg)
        (Z.to_nat (TestCli.MAX_RECONNECT_COUNT cfg))
        (TestCli.FIRST_RECONNECT_DELAY cfg) /\
    length (sleeps evs) = reconnects evs /\
    (reconnects evs <= Z.to_nat (TestCli.MAX_RECONNECT_COUNT cfg))%nat /\
    subscriptions evs = [].
Proof.
  cbn zeta. rewrite on_disconnect_loop.
  set (w0 := World _ _).
  destruct (reconnect_loop_bounded (TestCli.config self) client
              (Z.to_nat (TestCli.MAX_RECONNECT_COUNT (TestCli.config self)))
              0 (TestCli.FIRST_RECONNECT_DELAY (TestCli.config self)) w0)
    as (evs & Hsnd & Hsleeps & Hpairs & Hcount & Hsubs & _).
  rewrite Z.sub_0_r in Hcount.
  destruct (TestCli.reconnect_loop _ _ _ _ _ _) as [[[|c|]|e] w1];
    cbn [snd] in Hsnd; subst w1 w0; cbn [snd files trace].
  2: { exists (evs ++ [Log (LogGivingUp c)])%list.
       rewrite <- !app_assoc. split; [done|].
       rewrite sleeps_app, reconnects_app. cbn. rewrite app_nil_r, Nat.add_0_r.
       split; [done|]. split; [done|]. split; [done|].
       unfold subscriptions in *. rewrite flat_map_app, Hsubs. done. }
  all: exists evs; rewrite <- !app_assoc; done.
Qed.



(** X17.  Under the default settings one call of [on_disconnect] sleeps at
    most 423 seconds in all and makes at most 12 attempts, whatever the
    broker does and however the call ends. *)
Theorem on_disconnect_default_latency self client rc w :
  default_backoff (TestCli.config self) ->
  exists evs,
    snd (TestCli.on_disconnect self client rc w) =
      World (files w) (trace w ++ evs)%list /\
    total (sleeps evs) <= 423 /\
    (reconnects evs <= 12)%nat.
Proof.
  intros (Hfirst & Hrate & Hlimit & Hceil). rewrite on_disconnect_loop.
  set (w0 := World _ _).
  destruct (reconnect_loop_bounded (TestCli.config self) client
              (Z.to_nat (TestCli.MAX_RECONNECT_COUNT (TestCli.config self)))
              0 (TestCli.FIRST_RECONNECT_DELAY (TestCli.config self)) w0)
    as (evs & Hsnd & Hsleeps & _ & Hcount & _ & _).
  rewrite Hfirst, Hrate, Hlimit, Hceil in *.
  change (Z.to_nat 12) with 12%nat in *. change (Z.to_nat (12 - 0)) with 12%nat in *.
  assert (total (sleeps evs) <= 423) as Htotal.
  { change 423 with (total (backoff_delays 2 60 12 1)).
    apply total_prefix; [done|]. cbn. repeat constructor; lia. }
  destruct (TestCli.reconnect_loop _ _ _ _ _ _) as [[[|c|]|e] w1];
    cbn [snd] in Hsnd; subst w1 w0; cbn [snd files trace].
  2: { exists (Log (LogDisconnected rc) :: evs ++ [Log (LogGivingUp c)])%list.
       rewrite <- !app_assoc. split; [done|].
       change (Log (LogDisconnected rc) :: evs ++ [Log (LogGivingUp c)])%list
         with ([Log (LogDisconnected rc)] ++ evs ++ [Log (LogGivingUp c)])%list.
       rewrite !sleeps_app, !reconnects_app. cbn [sleeps flat_map app reconnects
         List.filter length]. rewrite app_nil_r. split; [done | lia]. }
  all: exists (Log (LogDisconnected rc) :: evs); rewrite <- !app_assoc;
    (split; [done|]); split; [exact Htotal | exact Hcount].
Qed.

Lemma on_disconnect_default_latency_witness :
  default_backoff (TestCli.config sample_self) /\
  exists evs,
    snd (TestCli.on_disconnect sample_self broker_back_at_fourth 1 fresh_world) =
      World ∅ evs /\
    total (sleeps evs) <= 423 /\ (reconnects evs <= 12)%nat.
Proof.
  assert (default_backoff (TestCli.config sample_self)) as Hdefault
    by (repeat split).
  split; [exact Hdefault|].
  exact (on_disconnect_default_latency sample_self broker_back_at_fourth 1
           fresh_world Hdefault).
Defined.

(** X18.  The schedule in closed form, for any settings with a rate of at
    least 1 and a first delay and a ceiling that are not negative and
    under [longest_delay]: when
    every attempt raises an error, [on_disconnect] makes
    [MAX_RECONNECT_COUNT] attempts, sleeps the first delay as configured
    before the first one (the ceiling does not apply to it) and
    [min(first * rate^k, ceiling)] before attempt [k], then logs that it
    gives up after that many attempts and returns with [FLAG_EXIT] set. *)
Theorem on_disconnect_schedule_closed_form self client rc w :
  let cfg := TestCli.config self in
  0 <= TestCli.FIRST_RECONNECT_DELAY cfg < longest_delay ->
  1 <= TestCli.RECONNECT_RATE cfg ->
  0 <= TestCli.MAX_RECONNECT_DELAY cfg < longest_delay ->
  0 <= TestCli.MAX_RECONNECT_COUNT cfg ->
  (forall k, raises_error client k) ->
  exists evs,
    TestCli.on_disconnect self client rc w =
      (Ok (exit_requested self),
       World (files w)
         (trace w ++ Log (LogDisconnected rc) :: evs
            ++ [Log (LogGivingUp (TestCli.MAX_RECONNECT_COUNT cfg))])%list) /\
    sleeps evs =
      map (delay_at (TestCli.FIRST_RECONNECT_DELAY cfg) (TestCli.RECONNECT_RATE cfg)
             (TestCli.MAX_RECONNECT_DELAY cfg))
          (seq 0 (Z.to_nat (TestCli.MAX_RECONNECT_COUNT cfg))) /\
    reconnects evs = Z.to_nat (TestCli.MAX_RECONNECT_COUNT cfg).
Proof.
  cbn zeta. unfold longest_delay. change (2 ^ 31) with 2147483648.
  intros Hfirst Hrate Hceil Hlimit Hfail. rewrite on_disconnect_loop.
  set (w0 := World _ _).
  destruct (reconnect_loop_run (TestCli.config self) client
              ltac:(lia) ltac:(lia)
              (Z.to_nat (TestCli.MAX_RECONNECT_COUNT (TestCli.config self)))
              (Z.to_nat (TestCli.MAX_RECONNECT_COUNT (TestCli.config self)))
              0 (TestCli.FIRST_RECONNECT_DELAY (TestCli.config self)) w0)
    as (evs & Hrun & Hsleeps & Hcount & _).
  - lia.
  - lia.
  - lia.
  - intros i _. apply Hfail.
  - lia.
  - assert ((0 + Z.of_nat (Z.to_nat (TestCli.MAX_RECONNECT_COUNT (TestCli.config self)))
             <? TestCli.MAX_RECONNECT_COUNT (TestCli.config self)) = false) as Hb
      by (apply Z.ltb_ge; lia).
    rewrite Hb in *. rewrite Z.add_0_l, Z2Nat.id in Hrun by done.
    rewrite Hrun. subst w0. cbn [files trace].
    exists evs. split; [|split; [|exact Hcount]].
    + by rewrite <- !app_assoc.
    + rewrite Hsleeps. apply backoff_delays_closed; lia.
Qed.

Lemma on_disconnect_schedule_closed_form_witness :
  (forall k, raises_error unreachable_broker k) /\
  exists evs,
    TestCli.on_disconnect patient_self unreachable_broker 1 fresh_world =
      (Ok (exit_requested patient_self),
       World ∅ (Log (LogDisconnected 1) :: evs ++ [Log (LogGivingUp 5)])%list) /\
    sleeps evs = [2; 6; 18; 54; 100].
Proof.
  assert (forall k, raises_error unreachable_broker k) as Hfail
    by (intros k; exists refused; split; reflexivity).
  split; [exact Hfail|].
  destruct (on_disconnect_schedule_closed_form patient_self unreachable_broker 1
              fresh_world)
    as (evs & Hrun & Hsleeps & _);
    [by vm_compute | cbn; lia | by vm_compute | cbn; lia | exact Hfail |].
  exists evs. split; [exact Hrun | exact Hsleeps].
Defined.

Lemma error_logs_app t1 t2 :
  error_logs (t1 ++ t2) = (error_logs t1 ++ error_logs t2)%list.
Proof. unfold error_logs, logs. by rewrite flat_map_app, List.filter_app. Qed.

(** The loop over [n] attempts in a row that raise errors. *)
Lemma reconnect_loop_failures (cfg : TestCli.Config) (client : Client) :
  0 <= TestCli.RECONNECT_RATE cfg ->
  0 <= TestCli.MAX_RECONNECT_DELAY cfg < 9223372037 ->
  forall (n fuel : nat) count delay w,
    0 <= delay < 9223372037 ->
    count + Z.of_nat n <= TestCli.MAX_RECONNECT_COUNT cfg ->
    (forall i, (i < n)%nat -> raises_error client (reconnects (trace w) + i)) ->
    exists evs delay',
      TestCli.reconnect_loop (n + fuel) cfg client count delay w =
        TestCli.reconnect_loop fuel cfg client (count + Z.of_nat n) delay'
          (World (files w) (trace w ++ evs)%list) /\
      0 <= delay' < 9223372037 /\
      backoff_delays (TestCli.RECONNECT_RATE cfg) (TestCli.MAX_RECONNECT_DELAY cfg)
        (S n) delay = (sleeps evs ++ [delay'])%list /\
      reconnects evs = n /\
      length (error_logs evs) = n.
Proof.
  intros Hrate Hceil n.
  induction n as [|n IH]; intros fuel count delay w Hd Hn Hfail.
  - exists [], delay. rewrite app_nil_r, Z.add_0_r. cbn [Nat.add].
    split; [by destruct w|]. done.
  - destruct (Hfail 0%nat ltac:(lia)) as (e & Hr & He).
    rewrite Nat.add_0_r in Hr. cbn [Nat.add].
    rewrite (loop_step_failed cfg client (n + fuel) count delay w e)
      by (done || lia).
    set (w1 := World _ _).
    assert (reconnects (trace w1) = S (reconnects (trace w))) as Hk.
    { subst w1. cbn [trace]. rewrite reconnects_app. cbn. lia. }
    destruct (IH fuel (count + 1)
                (Z.min (delay * TestCli.RECONNECT_RATE cfg)
                       (TestCli.MAX_RECONNECT_DELAY cfg)) w1)
      as (evs & delay' & Hrun & Hd' & Hsleeps & Hcount & Herrors).
    + assert (0 <= delay * TestCli.RECONNECT_RATE cfg) by nia. lia.
    + lia.
    + intros i Hi. rewrite Hk.
      replace (S (reconnects (trace w)) + i)%nat
        with (reconnects (trace w) + S i)%nat by lia.
      apply Hfail. lia.
    + exists ([Log (LogReconnecting delay); Sleep delay; Reconnect;
               Log (LogReconnectFailed e)] ++ evs)%list, delay'.
      split; [|split; [done|split; [|split]]].
      * rewrite Hrun. subst w1. cbn [files trace]. rewrite <- app_assoc.
        by replace (count + 1 + Z.of_nat n) with (count + Z.of_nat (S n)) by lia.
      * rewrite sleeps_app. cbn [sleeps flat_map app]. cbn [backoff_delays].
        f_equal. exact Hsleeps.
      * rewrite reconnects_app, Hcount. reflexivity.
      * rewrite error_logs_app, length_app, Herrors. reflexivity.
Qed.

(** X19.  An exception of [client.reconnect()] that is no [Exception] (a
    keyboard interrupt, say) goes through [on_disconnect]: after [n]
    attempts that raised errors, each logged, the attempt that raises it is
    the last thing the handler does -- no failure is logged for it, nothing
    is retried, nothing reports giving up, and no object with [FLAG_EXIT]
    set is returned. *)
Theorem on_disconnect_interrupt_propagates self client rc w (n : nat) e :
  let cfg := TestCli.config self in
  0 <= TestCli.FIRST_RECONNECT_DELAY cfg < longest_delay ->
  0 <= TestCli.RECONNECT_RATE cfg ->
  0 <= TestCli.MAX_RECONNECT_DELAY cfg < longest_delay ->
  Z.of_nat n < TestCli.MAX_RECONNECT_COUNT cfg ->
  (forall i, (i < n)%nat -> raises_error client (reconnects (trace w) + i)) ->
  reconnect_result client (reconnects (trace w) + n) = Some e ->
  isinstance_exn e Exception = false ->
  exists evs,
    TestCli.on_disconnect self client rc w =
      (Raise e,
       World (files w)
         (trace w ++ Log (LogDisconnected rc) :: evs ++ [Reconnect])%list) /\
    sleeps evs =
      backoff_delays (TestCli.RECONNECT_RATE cfg) (TestCli.MAX_RECONNECT_DELAY cfg)
        (S n) (TestCli.FIRST_RECONNECT_DELAY cfg) /\
    reconnects evs = n /\
    length (error_logs evs) = n.
Proof.
  cbn zeta. unfold longest_delay. change (2 ^ 31) with 2147483648.
  intros Hfirst Hrate Hceil Hn Hfail Hlast He.
  rewrite on_disconnect_loop. set (w0 := World _ _).
  assert (reconnects (trace w0) = reconnects (trace w)) as Hk
    by apply reconnects_disconnected.
  assert (exists fuel,
             Z.to_nat (TestCli.MAX_RECONNECT_COUNT (TestCli.config self)) =
             (n + S fuel)%nat) as [fuel ->].
  { exists (Z.to_nat (TestCli.MAX_RECONNECT_COUNT (TestCli.config self)) - S n)%nat.
    lia. }
  destruct (reconnect_loop_failures (TestCli.config self) client Hrate
              ltac:(lia)
              n (S fuel) 0 (TestCli.FIRST_RECONNECT_DELAY (TestCli.config self)) w0)
    as (evs & delay' & Hrun & Hd' & Hsleeps & Hcount & Herrors).
  - lia.
  - lia.
  - intros i Hi. rewrite Hk. by apply Hfail.
  - rewrite Hrun, loop_turn by lia. cbn [files trace].
    rewrite sleep_accepted by done.
    rewrite reconnects_app, Hk, Hcount, Hlast, He.
    exists (evs ++ [Log (LogReconnecting delay'); Sleep delay'])%list.
    subst w0. cbn [files trace]. split; [|split; [|split]].
    + by rewrite <- !app_assoc.
    + rewrite sleeps_app. cbn [sleeps flat_map app]. by rewrite Hsleeps.
    + rewrite reconnects_app, Hcount. cbn. lia.
    + rewrite error_logs_app, length_app, Herrors. cbn. lia.
Qed.

Lemma on_disconnect_interrupt_propagates_witness :
  exists evs,
    TestCli.on_disconnect sample_self interrupted_broker 1 fresh_world =
      (Raise interrupted,
       World ∅ (Log (LogDisconnected 1) :: evs ++ [Reconnect])%list) /\
    sleeps evs = [1; 2; 4] /\
    reconnects evs = 2%nat /\
    length (error_logs evs) = 2%nat.
Proof.
  apply (on_disconnect_interrupt_propagates sample_self interrupted_broker 1
           fresh_world 2 interrupted).
  - by vm_compute.
  - cbn. lia.
  - by vm_compute.
  - cbn. lia.
  - intros i Hi. exists refused. split; [|reflexivity].
    cbn. destruct i as [|[|i]]; [reflexivity | reflexivity | lia].
  - reflexivity.
  - reflexivity.
Defined.

(** ** Start-up, for every surrounding *)

Lemma parse_topics_pure topics w : snd (TestCli.parse_topics topics w) = w.
Proof.
  unfold TestCli.parse_topics, try_except, bind, lift, ret, raise.
  destruct topics as [text [v|e]|items|type]; cbn [TestCli.items_of].
  - destruct v; cbn; try reflexivity.
    by destruct (negb (forallb is_str items)).
  - cbn [handle]. by destruct (existsb _ _).
  - by destruct (negb (forallb is_str items)).
  - reflexivity.
Qed.

Lemma yaml_creds_opens env path w :
  snd (TestCli.yaml_creds env path w) =
    World (files w) (trace w ++ [OpenRead path])%list.
Proof.
  unfold TestCli.yaml_creds, try_except, bind, emit, lift, raise, ret.
  cbn [files trace].
  destruct (safe_load env path) as [[e|problem|value]|]; try reflexivity.
  - cbn [yaml_result handle existsb]. rewrite !orb_false_r.
    destruct (isinstance_exn e FileNotFoundError); [reflexivity|].
    destruct (isinstance_exn e YAMLError); [reflexivity|].
    by destruct (isinstance_exn e KeyError).
  - destruct value; try reflexivity.
    cbn [yaml_result is_dict negb getitem].
    by destruct (d !! "usr"); [destruct (d !! "pwd")|].
Qed.

Lemma _get_token_requests env username password w :
  snd (TestCli._get_token env username password w) =
    World (files w) (trace w ++ [Request "POST" auth_url])%list.
Proof.
  unfold TestCli._get_token, bind, emit, lift, ret.
  destruct (post_auth env username password) as [response|e]; [|reflexivity].
  destruct (status_code response =? 200).
  - destruct (json response) as [body|e]; [|reflexivity].
    by destruct (getitem body "token").
  - by destruct (raise_for_status response).
Qed.

Lemma _get_investorid_requests env token w :
  snd (TestCli._get_investorid env token w) =
    World (files w) (trace w ++ [Request "GET" me_url])%list.
Proof.
  unfold TestCli._get_investorid, bind, emit, lift, ret.
  destruct (get_me env token) as [response|e]; [|reflexivity].
  destruct (status_code response =? 200).
  - destruct (json response) as [body|e]; [|reflexivity].
    by destruct (getitem body "investorId").
  - by destruct (raise_for_status response).
Qed.

Lemma forallb_is_str (l : list string) : forallb is_str (map PyStr l) = true.
Proof. induction l as [|s l IH]; [reflexivity | exact IH]. Qed.

Lemma str_of_PyStr (l : list string) : map TestCli.str_of (map PyStr l) = l.
Proof. induction l as [|s l IH]; [reflexivity | cbn; by rewrite IH]. Qed.

(** X20.  Topics that are strings pass the checks of [run] unchanged and
    in order, whether they come as a list or as a string that
    [ast.literal_eval] evaluates to a list -- the empty list included; the
    checks themselves touch nothing. *)
Theorem parse_topics_accepts_string_lists (l : list string) text w :
  TestCli.parse_topics (TestCli.TopicsCollection (map PyStr l)) w = (Ok l, w) /\
  TestCli.parse_topics (TestCli.TopicsStr text (Ok (PyList (map PyStr l)))) w =
    (Ok l, w).
Proof.
  unfold TestCli.parse_topics, try_except, bind, lift, ret.
  cbn [TestCli.items_of]. by rewrite forallb_is_str, str_of_PyStr.
Qed.

(** [run] once the topics are accepted. *)
Lemma run_startup env creds_path topics l w :
  TestCli.parse_topics topics w = (Ok l, w) ->
  exists evs r,
    TestCli.run env creds_path topics w =
      (r, World (files w) (trace w ++ evs)%list) /\
    evs `prefix_of` startup_sequence creds_path l /\
    (r = Ok tt <-> evs = startup_sequence creds_path l) /\
    [Log (LogParsedTopics l); OpenRead creds_path] `prefix_of` evs.
Proof.
  intros Hparse. unfold TestCli.run. unfold bind at 1. rewrite Hparse.
  unfold bind at 1. unfold logging, emit at 1. set (w1 := World _ _).
  unfold bind at 1. unfold TestCli.Config__init__. unfold bind at 1.
  pose proof (yaml_creds_opens env creds_path w1) as Hopen.
  destruct (TestCli.yaml_creds env creds_path w1) as [[creds|e] w2];
    cbn [snd] in Hopen; subst w2 w1; cbn [files trace].
  2: { exists [Log (LogParsedTopics l); OpenRead creds_path], (Raise e).
       split; [cbn; by rewrite <- app_assoc|]. split; [by eexists|].
       split; [|by eexists].
       split; [discriminate | by intros ?%(f_equal length)]. }
  set (w2 := World _ _).
  unfold bind at 1. unfold TestCli.Auth__init__. unfold bind at 1.
  pose proof (_get_token_requests env (fst creds) (snd creds) w2) as Htoken.
  destruct (TestCli._get_token env (fst creds) (snd creds) w2) as [[token|e] w3];
    cbn [snd] in Htoken; subst w3 w2; cbn [files trace].
  2: { exists [Log (LogParsedTopics l); OpenRead creds_path;
               Request "POST" auth_url], (Raise e).
       split; [cbn; by rewrite <- !app_assoc|]. split; [by eexists|].
       split; [|by eexists].
       split; [discriminate | by intros ?%(f_equal length)]. }
  set (w3 := World _ _).
  unfold bind at 1.
  pose proof (_get_investorid_requests env token w3) as Hid.
  destruct (TestCli._get_investorid env token w3) as [[investor_id|e] w4];
    cbn [snd] in Hid; subst w4 w3; cbn [files trace].
  2: { exists [Log (LogParsedTopics l); OpenRead creds_path;
               Request "POST" auth_url; Request "GET" me_url], (Raise e).
       split; [cbn; by rewrite <- !app_assoc|]. split; [by eexists|].
       split; [|by eexists].
       split; [discriminate | by intros ?%(f_equal length)]. }
  unfold ret at 1. unfold ret at 1.
  unfold TestCli.connect_mqtt, bind, emit, raise, ret. cbn [files trace].
  destruct (broker_connect env) as [e|].
  - exists [Log (LogParsedTopics l); OpenRead creds_path;
            Request "POST" auth_url; Request "GET" me_url;
            Connect "datafeed-lts.dnse.com.vn" 443 120], (Raise e).
    split; [cbn; by rewrite <- !app_assoc|]. split; [by eexists|].
    split; [|by eexists].
    split; [discriminate | by intros ?%(f_equal length)].
  - exists (startup_sequence creds_path l), (Ok tt).
    split; [cbn; by rewrite <- !app_assoc|]. split; [done|].
    split; [done | by eexists].
Qed.

(** X21.  [run] goes through its start-up in one fixed order and stops at
    the first step that fails: what it does is always an initial part of
    logging the topics, opening the credentials file, the authentication
    request, the account request, connecting to the broker, entering the
    receive loop -- each once, nothing retried, no sink file touched -- and
    it gets to the receive loop exactly when the five steps before it went
    through.  When the topics are refused it does nothing at all. *)
Theorem run_follows_startup_sequence env creds_path topics w :
  match TestCli.parse_topics topics w with
  | (Raise e, _) => TestCli.run env creds_path topics w = (Raise e, w)
  | (Ok topics_tuple, _) =>
      exists evs,
        snd (TestCli.run env creds_path topics w) =
          World (files w) (trace w ++ evs)%list /\
        evs `prefix_of` startup_sequence creds_path topics_tuple /\
        (fst (TestCli.run env creds_path topics w) = Ok tt <->
         evs = startup_sequence creds_path topics_tuple)
  end.
Proof.
  pose proof (parse_topics_pure topics w) as Hpure.
  destruct (TestCli.parse_topics topics w) as [[l|e] w0] eqn:Hparse;
    cbn [snd] in Hpure; subst w0.
  - destruct (run_startup env creds_path topics l w Hparse)
      as (evs & r & -> & Hprefix & Hok & _).
    by exists evs.
  - unfold TestCli.run. unfold bind at 1. by rewrite Hparse.
Qed.

(** X22.  When the credentials file holds both keys and the two endpoints
    answer 200 with a token and an investor id, [Config.__init__] posts the
    credentials of the file, asks for the account with the token it just
    got, and returns a configuration whose [USERNAME] is the investor id
    (not the user name of the file), whose [PASSWORD] is the token and
    whose [TOPICS] are those given -- after one read and two requests. *)
Theorem Config__init__authenticates env creds_path topics w
    (d auth_body me_body : gmap string pyval) usr pwd token investor_id :
  safe_load env creds_path = Some (Loaded (PyDict d)) ->
  d !! "usr" = Some usr -> d !! "pwd" = Some pwd ->
  post_auth env usr pwd = Ok (Response 200 (Ok (PyDict auth_body))) ->
  auth_body !! "token" = Some token ->
  get_me env token = Ok (Response 200 (Ok (PyDict me_body))) ->
  me_body !! "investorId" = Some investor_id ->
  exists cfg,
    TestCli.Config__init__ env creds_path topics w =
      (Ok cfg,
       World (files w)
         (trace w ++ [OpenRead creds_path; Request "POST" auth_url;
                      Request "GET" me_url])%list) /\
    TestCli.auth cfg = TestCli.MkAuth usr pwd token investor_id /\
    TestCli.USERNAME cfg = investor_id /\
    TestCli.PASSWORD cfg = token /\
    TestCli.TOPICS cfg = topics.
Proof.
  intros Hfile Husr Hpwd Hpost Htoken Hme Hid.
  unfold TestCli.Config__init__, TestCli.yaml_creds, TestCli.Auth__init__,
    TestCli._get_token, TestCli._get_investorid,
    try_except, bind, emit, lift, ret.
  rewrite Hfile. cbn [yaml_result is_dict negb getitem]. rewrite Husr, Hpwd.
  cbn [fst snd]. rewrite Hpost. cbn [status_code json Z.eqb Pos.eqb getitem].
  rewrite Htoken, Hme. cbn [status_code json Z.eqb Pos.eqb getitem].
  rewrite Hid. cbn [files trace]. rewrite <- !app_assoc.
  eexists. split; [reflexivity|]. done.
Qed.

Lemma Config__init__authenticates_witness :
  exists cfg,
    TestCli.Config__init__ sample_env "creds.yaml" default_topics fresh_world =
      (Ok cfg,
       World ∅ [OpenRead "creds.yaml"; Request "POST" auth_url;
                Request "GET" me_url]) /\
    TestCli.auth cfg =
      TestCli.MkAuth (PyStr "0900000000") (PyStr "secret") (PyStr "jwt")
        (PyStr "1000001") /\
    TestCli.USERNAME cfg = PyStr "1000001" /\
    TestCli.PASSWORD cfg = PyStr "jwt" /\
    TestCli.TOPICS cfg = default_topics.
Proof.
  apply (Config__init__authenticates sample_env "creds.yaml" default_topics
           fresh_world
           (list_to_map [("usr", PyStr "0900000000"); ("pwd", PyStr "secret")])
           {[ "token" := PyStr "jwt" ]} {[ "investorId" := PyStr "1000001" ]});
    reflexivity.
Defined.

(** X23.  Started from the command line, the script never fails on its
    topics: whatever topics [argparse] hands over -- the two default ones
    when none are given -- [run] logs exactly those and goes on to open the
    credentials file. *)
Theorem main_reaches_credentials env creds_path topics w :
  exists evs,
    snd (main env creds_path topics w) =
      World (files w)
        (trace w ++ Log (LogParsedTopics (default default_topics topics))
           :: OpenRead creds_path :: evs)%list.
Proof.
  unfold main.
  destruct (run_startup env creds_path
              (TestCli.TopicsCollection (map PyStr (default default_topics topics)))
              (default default_topics topics) w)
    as (evs & r & -> & _ & _ & [rest ->]).
  - unfold TestCli.parse_topics, bind, lift, ret. cbn [TestCli.items_of].
    by rewrite forallb_is_str, str_of_PyStr.
  - by exists rest.
Qed.

(** ** The two scripts side by side *)

(** X24.  [_get_token] of [test_cli.py] and [dnse_auth] of [stream.py] do
    the same -- same request, same result, same exception -- exactly when
    the authentication endpoint does not answer with a status of 400 to
    599: on such a status the first raises [HTTPError] and the second
    returns [None]; on every other answer, 200 or not, they agree. *)
Theorem token_functions_agree env username password w :
  TestCli._get_token env username password w =
    Stream.dnse_auth env username password w <->
  (forall response,
      post_auth env username password = Ok response ->
      ~ 400 <= status_code response < 600).
Proof.
  unfold TestCli._get_token, Stream.dnse_auth, bind, emit, lift, ret,
    raise_for_status.
  destruct (post_auth env username password) as [response|e].
  2: { split; [intros _ response; discriminate | done]. }
  destruct (status_code response =? 200) eqn:H200.
  - apply Z.eqb_eq in H200. split.
    + intros _ r [= <-]. lia.
    + intros _. destruct (json response) as [body|e]; [|done].
      by destruct (getitem body "token").
  - destruct (Z.leb_spec 400 (status_code response)) as [Hlo|Hlo];
      destruct (Z.ltb_spec (status_code response) 600) as [Hhi|Hhi]; cbn.
    + split; [discriminate|]. intros Hno. exfalso. apply (Hno response); [done|lia].
    + split; [|done]. intros _ r [= <-]. lia.
    + split; [|done]. intros _ r [= <-]. lia.
    + split; [|done]. intros _ r [= <-]. lia.
Qed.

(** X25.  [stream.py] does not stop at a refused login.  When the
    authentication endpoint answers anything but 200, the module still
    asks for the account, with [None] for a token; when that answer is not
    200 either, loading the module ends in the [TypeError] of subscripting
    [None], after the file was read and both requests were sent. *)
Theorem load_module_fails_late env (d : gmap string pyval) usr pwd
    auth_response me_response w :
  safe_load env Stream.creds_path = Some (Loaded (PyDict d)) ->
  d !! "usr" = Some usr -> d !! "pwd" = Some pwd ->
  post_auth env usr pwd = Ok auth_response ->
  status_code auth_response <> 200 ->
  get_me env PyNone = Ok me_response ->
  status_code me_response <> 200 ->
  Stream.dnse_auth env usr pwd w =
    (Ok PyNone, World (files w) (trace w ++ [Request "POST" auth_url])%list) /\
  Stream.load_module env w =
    (Raise (Exn TypeError "'NoneType' object is not subscriptable"),
     World (files w)
       (trace w ++ [OpenRead Stream.creds_path; Request "POST" auth_url;
                    Request "GET" me_url])%list).
Proof.
  intros Hfile Husr Hpwd Hpost Hauth Hme Haccount.
  apply Z.eqb_neq in Hauth, Haccount.
  unfold Stream.load_module, Stream.dnse_auth, Stream.account_info,
    bind, emit, lift, ret.
  rewrite Hfile. cbn [yaml_result getitem files trace]. rewrite Husr, Hpwd, Hpost, Hauth.
  split; [reflexivity|].
  cbn [files trace]. rewrite Hme, Haccount. cbn [getitem type_name].
  by rewrite <- !app_assoc.
Qed.

Lemma load_module_fails_late_witness :
  Stream.dnse_auth stream_wrong_password_env (PyStr "0900000000") (PyStr "secret")
    fresh_world =
    (Ok PyNone, World ∅ [Request "POST" auth_url]) /\
  Stream.load_module stream_wrong_password_env fresh_world =
    (Raise (Exn TypeError "'NoneType' object is not subscriptable"),
     World ∅ [OpenRead Stream.creds_path; Request "POST" auth_url;
              Request "GET" me_url]).
Proof.
  apply (load_module_fails_late stream_wrong_password_env
           (list_to_map [("usr", PyStr "0900000000"); ("pwd", PyStr "secret")])
           (PyStr "0900000000") (PyStr "secret") unauthorized unauthorized
           fresh_world); try reflexivity; cbn; lia.
Defined.

(** X26.  On the same surroundings the two scripts log in to the broker
    alike.  When the credentials file of [stream.py] holds both keys and
    the endpoints answer 200 with a token and an investor id, loading
    [stream.py] and [Config.__init__] of [test_cli.py] on that file do the
    same read and the same two requests, and end with the same broker,
    port, user name (the investor id) and password (the token); the
    topics of [stream.py] are the two default ones of the command line. *)
Theorem scripts_authenticate_alike env topics w
    (d auth_body me_body : gmap string pyval) usr pwd token investor_id :
  safe_load env Stream.creds_path = Some (Loaded (PyDict d)) ->
  d !! "usr" = Some usr -> d !! "pwd" = Some pwd ->
  post_auth env usr pwd = Ok (Response 200 (Ok (PyDict auth_body))) ->
  auth_body !! "token" = Some token ->
  get_me env token = Ok (Response 200 (Ok (PyDict me_body))) ->
  me_body !! "investorId" = Some investor_id ->
  exists cfg cfg' w',
    Stream.load_module env w = (Ok cfg, w') /\
    TestCli.Config__init__ env Stream.creds_path topics w = (Ok cfg', w') /\
    Stream.USERNAME cfg = investor_id /\ TestCli.USERNAME cfg' = investor_id /\
    Stream.PASSWORD cfg = token /\ TestCli.PASSWORD cfg' = token /\
    Stream.BROKER cfg = TestCli.BROKER cfg' /\
    Stream.PORT cfg = TestCli.PORT cfg' /\
    Stream.TOPICS cfg = default_topics.
Proof.
  intros Hfile Husr Hpwd Hpost Htoken Hme Hid.
  unfold Stream.load_module, Stream.dnse_auth, Stream.account_info,
    TestCli.Config__init__, TestCli.yaml_creds, TestCli.Auth__init__,
    TestCli._get_token, TestCli._get_investorid,
    try_except, bind, emit, lift, ret.
  rewrite Hfile. cbn [yaml_result is_dict negb getitem files trace].
  rewrite Husr, Hpwd. cbn [fst snd]. rewrite Hpost.
  cbn [status_code json Z.eqb Pos.eqb getitem files trace].
  rewrite Htoken. cbn [files trace]. rewrite Hme.
  cbn [status_code json Z.eqb Pos.eqb getitem files trace].
  rewrite Hid. cbn [files trace].
  do 3 eexists. split; [reflexivity|]. split; [reflexivity|]. done.
Qed.

Lemma scripts_authenticate_alike_witness :
  exists cfg cfg' w',
    Stream.load_module stream_sample_env fresh_world = (Ok cfg, w') /\
    TestCli.Config__init__ stream_sample_env Stream.creds_path default_topics
      fresh_world = (Ok cfg', w') /\
    Stream.USERNAME cfg = PyStr "1000001" /\
    TestCli.USERNAME cfg' = PyStr "1000001" /\
    Stream.PASSWORD cfg = PyStr "jwt" /\ TestCli.PASSWORD cfg' = PyStr "jwt" /\
    Stream.BROKER cfg = TestCli.BROKER cfg' /\
    Stream.PORT cfg = TestCli.PORT cfg' /\
    Stream.TOPICS cfg = default_topics.
Proof.
  apply (scripts_authenticate_alike stream_sample_env default_topics fresh_world
           (list_to_map [("usr", PyStr "0900000000"); ("pwd", PyStr "secret")])
           {[ "token" := PyStr "jwt" ]} {[ "investorId" := PyStr "1000001" ]}
           (PyStr "0900000000") (PyStr "secret") (PyStr "jwt") (PyStr "1000001"));
    reflexivity.
Defined.

(** ** The exit flag *)

Lemma on_disconnect_same_config s1 s2 client rc w :
  same_config s1 s2 ->
  snd (TestCli.on_disconnect s1 client rc w) =
    snd (TestCli.on_disconnect s2 client rc w) /\
  match fst (TestCli.on_disconnect s1 client rc w),
        fst (TestCli.on_disconnect s2 client rc w) with
  | Ok s1', Ok s2' => same_config s1' s2'
  | Raise e1, Raise e2 => e1 = e2
  | _, _ => False
  end.
Proof.
  unfold same_config. intros Hcfg. rewrite !on_disconnect_loop, Hcfg.
  by destruct (TestCli.reconnect_loop _ _ _ _ _ _) as [[[]|] ?].
Qed.

(** X27.  [FLAG_EXIT] stops nothing.  Over any number of disconnects
    handled in a row, an object on which the flag is set already -- by an
    earlier call that gave up -- sleeps and attempts to reconnect exactly
    as one on which it is not: the handler sets the flag and never reads
    it. *)
Theorem exit_flag_stops_nothing client rcs :
  forall self w,
    snd (TestCli.handle_disconnects (exit_requested self) client rcs w) =
    snd (TestCli.handle_disconnects self client rcs w).
Proof.
  assert (forall s1 s2 w, same_config s1 s2 ->
            snd (TestCli.handle_disconnects s1 client rcs w) =
            snd (TestCli.handle_disconnects s2 client rcs w)) as Hsame.
  { induction rcs as [|rc rcs IH]; intros s1 s2 w Hcfg; [reflexivity|].
    cbn [TestCli.handle_disconnects]. unfold bind.
    destruct (on_disconnect_same_config s1 s2 client rc w Hcfg) as [Hw Hr].
    destruct (TestCli.on_disconnect s1 client rc w) as [[s1'|e1] w1],
             (TestCli.on_disconnect s2 client rc w) as [[s2'|e2] w2];
      cbn [fst snd] in Hw, Hr; subst; try done.
    by apply IH. }
  intros self w. by apply Hsame.
Qed.
